(** * python-snap7: the DB layout parser and the server's standard test block

    A shallow embedding of

      - [snap7.util.parse_specification] (src/snap7/util/__init__.py), the
        parser of textual DB layouts, and
      - [snap7.server._init_standard_values] (src/snap7/server/__init__.py),
        the builder of the byte block served by the test server,

    together with the Python primitives both rely on ([str.split],
    [str.lstrip], [str.startswith], [OrderedDict.__setitem__], [bytearray]
    item and slice assignment, [struct.pack]).

    Python strings are sequences of Unicode code points; they are modelled as
    lists of code points ([N]).  Python exceptions are modelled by the error
    side of a sum type. *)

From Stdlib Require Import ZArith NArith List Bool Lia.
From Stdlib Require Import Strings.String Strings.Ascii.
From stdpp Require Import base decidable option numbers list.

Import ListNotations.
Local Open Scope Z_scope.

(** ** Exceptions and results *)

(** The exceptions the modelled code can raise.  The payload of the two
    unpacking errors is what CPython puts in the message:
    "not enough values to unpack (expected 3, got 2)" and
    "too many values to unpack (expected 3)". *)
Inductive exn : Type :=
| ValueError_not_enough_values (expected got : nat)
| ValueError_too_many_values (expected : nat)
| ValueError_byte_range
| IndexError_bytearray
| struct_error
| OverflowError_float.

Inductive result (A : Type) : Type :=
| Ok (a : A)
| Raise (e : exn).
Arguments Ok {A} a.
Arguments Raise {A} e.

#[global] Instance result_ret : MRet result := fun _ a => Ok a.

#[global] Instance result_bind : MBind result := fun _ _ k r =>
  match r with
  | Ok a => k a
  | Raise e => Raise e
  end.

(** ** Python strings *)

Module Py.

(** A [str] is a sequence of code points. *)
Definition str : Type := list N.

(** A string literal of the development, read as a Python string. *)
Definition lit (s : string) : str :=
  List.map N_of_ascii (list_ascii_of_string s).

Definition nl : N := 10%N.      (* "\n" *)
Definition hash : N := 35%N.    (* "#" *)

(** [str.isspace] on one code point: CPython's [_PyUnicode_IsWhitespace]. *)
Definition isspace (c : N) : bool :=
  ((9 <=? c) && (c <=? 13) ||
   (28 <=? c) && (c <=? 32) ||
   (c =? 133) || (c =? 160) || (c =? 5760) ||
   (8192 <=? c) && (c <=? 8202) ||
   (c =? 8232) || (c =? 8233) || (c =? 8239) || (c =? 8287) ||
   (c =? 12288))%N.

(** [s.lstrip()] *)
Fixpoint lstrip (s : str) : str :=
  match s with
  | [] => []
  | c :: s' => if isspace c then lstrip s' else s
  end.

(** [s.startswith(c)] for a one-character prefix. *)
Definition startswith (s : str) (c : N) : bool :=
  match s with
  | [] => false
  | c' :: _ => (c' =? c)%N
  end.

(** [s.split(sep)] for a one-character separator: never empty, keeps empty
    pieces. *)
Fixpoint split_sep (sep : N) (s : str) : list str :=
  match s with
  | [] => [[]]
  | c :: s' =>
      if (c =? sep)%N then [] :: split_sep sep s'
      else match split_sep sep s' with
           | piece :: pieces => (c :: piece) :: pieces
           | [] => [[c]]
           end
  end.

(** [s.split()]: the maximal runs of non-whitespace characters. *)
Fixpoint split (s : str) : list str :=
  match s with
  | [] => []
  | c :: s' =>
      if isspace c then split s'
      else match s' with
           | [] => [[c]]
           | c' :: _ =>
               if isspace c' then [c] :: split s'
               else match split s' with
                    | tok :: toks => (c :: tok) :: toks
                    | [] => [[c]]
                    end
           end
  end.

(** [sep.join(pieces)] for a one-character separator. *)
Fixpoint join (sep : N) (pieces : list str) : str :=
  match pieces with
  | [] => []
  | [p] => p
  | p :: ps => p ++ sep :: join sep ps
  end.

(** [l[0]]; the lists indexed below are never empty. *)
Definition item0 (l : list str) : str := List.hd [] l.

(** Truth value of a string: non-empty. *)
Definition truthy (s : str) : bool :=
  match s with [] => false | _ => true end.

End Py.

(** ** collections.OrderedDict *)

Module OrderedDict.

Section Dict.
Context {V : Type}.

(** Entries in iteration order; keys are pairwise distinct. *)
Definition t : Type := list (Py.str * V).

Definition empty : t := [].

(** [d[k] = v]: an existing key keeps its place, a new key goes last. *)
Fixpoint setitem (k : Py.str) (v : V) (d : t) : t :=
  match d with
  | [] => [(k, v)]
  | (k', v') :: d' =>
      if decide (k' = k) then (k, v) :: d'
      else (k', v') :: setitem k v d'
  end.

(** [d.get(k)] *)
Fixpoint get (k : Py.str) (d : t) : option V :=
  match d with
  | [] => None
  | (k', v') :: d' => if decide (k' = k) then Some v' else get k d'
  end.

(** [list(d)]: the keys in iteration order. *)
Definition keys (d : t) : list Py.str := List.map fst d.
End Dict.

Arguments t V : clear implicits.

End OrderedDict.

(** ** snap7.util.parse_specification *)

(** A parsed specification maps a variable name to the pair [(index, _type)]
    of the two other tokens of its line, both kept as text. *)
Definition specification : Type := OrderedDict.t (Py.str * Py.str).

(** The guard of the loop body:
    [line and not line.lstrip().startswith("#")]. *)
Definition line_selected (line : Py.str) : bool :=
  Py.truthy line && negb (Py.startswith (Py.lstrip line) Py.hash).

(** [line.lstrip().split("#")[0].split()] *)
Definition line_tokens (line : Py.str) : list Py.str :=
  Py.split (Py.item0 (Py.split_sep Py.hash (Py.lstrip line))).

(** [index, var_name, _type = tokens]: tuple unpacking into three targets. *)
Definition unpack3 (tokens : list Py.str) : result (Py.str * Py.str * Py.str) :=
  match tokens with
  | [index; var_name; _type] => Ok (index, var_name, _type)
  | _ =>
      if (length tokens <? 3)%nat
      then Raise (ValueError_not_enough_values 3 (length tokens))
      else Raise (ValueError_too_many_values 3)
  end.

(** The [for] loop over the lines, threading the dictionary under
    construction; an exception leaves the loop and the function. *)
Fixpoint parse_lines (lines : list Py.str) (parsed : specification)
  : result specification :=
  match lines with
  | [] => Ok parsed
  | line :: rest =>
      if line_selected line then
        '(index, var_name, _type) ← unpack3 (line_tokens line);
        parse_lines rest (OrderedDict.setitem var_name (index, _type) parsed)
      else parse_lines rest parsed
  end.

Definition parse_specification (db_specification : Py.str)
  : result specification :=
  parse_lines (Py.split_sep Py.nl db_specification) OrderedDict.empty.

(** ** bytearray *)

Module Bytearray.

(** A [bytearray]: its items are integers in [range(0, 256)]. *)
Definition t : Type := list Z.

(** [bytearray(n)]: [n] zero bytes. *)
Definition zeros (n : nat) : t := replicate n 0.

(** [ba[i] = v] for an index [i >= 0]: the value must be a byte and the index
    in range; the length never changes. *)
Definition setitem (ba : t) (i : nat) (v : Z) : result t :=
  if negb ((0 <=? v) && (v <? 256)) then Raise ValueError_byte_range
  else if negb (i <? length ba)%nat then Raise IndexError_bytearray
  else Ok (<[i := v]> ba).

(** [ba[start:stop] = v] for bounds [start, stop >= 0]: both bounds are
    clipped to the length, an inverted slice is empty at [start], and the
    slice is REPLACED by [v], whatever the two lengths are. *)
Definition setslice (ba : t) (start stop : nat) (v : list Z) : t :=
  let start' := Nat.min start (length ba) in
  let stop' := Nat.max start' (Nat.min stop (length ba)) in
  take start' ba ++ v ++ drop stop' ba.

End Bytearray.

(** ** struct.pack *)

Module Struct.

(** The [n] bytes of [x mod 256^n], most significant first. *)
Fixpoint big_endian (n : nat) (x : Z) : list Z :=
  match n with
  | O => []
  | S n' => (x / 256 ^ Z.of_nat n') mod 256 :: big_endian n' x
  end.

(** An integer format of [n] bytes with the bounds [lo <= x <= hi]. *)
Definition pack_int (n : nat) (lo hi x : Z) : result (list Z) :=
  if (lo <=? x) && (x <=? hi) then Ok (big_endian n x) else Raise struct_error.

(** [struct.pack(">b", x)], [struct.pack("B", x)], [struct.pack(">h", x)],
    [struct.pack(">i", x)] *)
Definition pack_b : Z -> result (list Z) := pack_int 1 (-128) 127.
Definition pack_B : Z -> result (list Z) := pack_int 1 0 255.
Definition pack_h : Z -> result (list Z) := pack_int 2 (-32768) 32767.
Definition pack_i : Z -> result (list Z) := pack_int 4 (-2147483648) 2147483647.

(** A Python [float] (IEEE-754 binary64) that is not a NaN:
    [(-1)^sign * mant * 2^expo], or an infinity. *)
Inductive float : Type :=
| Finite (sign : bool) (mant expo : Z)
| Infinite (sign : bool).

(** Unary minus. *)
Definition neg (x : float) : float :=
  match x with
  | Finite s m e => Finite (negb s) m e
  | Infinite s => Infinite (negb s)
  end.

(** [2^e <= num/den], for positive [num] and [den]. *)
Definition pow2_le (e num den : Z) : bool :=
  if 0 <=? e then den * 2 ^ e <=? num else den <=? num * 2 ^ (- e).

(** The [e] with [2^e <= num/den < 2^(e+1)]. *)
Definition ilog2 (num den : Z) : Z :=
  let e0 := Z.log2 num - Z.log2 den in
  if pow2_le e0 num den then e0 else e0 - 1.

(** Rounding of the positive rational [num/den] to the nearest multiple
    [m * 2^ex] of the unit in the last place of a binary format with [prec]
    significant bits and least exponent [emin], ties to even. *)
Definition round_even (prec emin num den : Z) : Z * Z :=
  let ex := Z.max (ilog2 num den - prec + 1) emin in
  let n := if 0 <=? ex then num else num * 2 ^ (- ex) in
  let d := if 0 <=? ex then den * 2 ^ ex else den in
  let q := n / d in
  let r := n mod d in
  let m := if 2 * r <? d then q
           else if d <? 2 * r then q + 1
           else if Z.even q then q else q + 1 in
  (m, ex).

(** The float denoted by a decimal literal with the digit string [digits],
    of which the last [frac] stand after the point, and the exponent [exp]:
    [3.402823e38] is [literal 3402823 6 38]. *)
Definition literal (digits frac exp : Z) : float :=
  if digits =? 0 then Finite false 0 0
  else
    let k := exp - frac in
    let num := if 0 <=? k then digits * 10 ^ k else digits in
    let den := if 0 <=? k then 1 else 10 ^ (- k) in
    let '(m, ex) := round_even 53 (-1074) num den in
    if 1024 <=? Z.log2 m + ex then Infinite false else Finite false m ex.

(** The bit pattern of a binary32 from its sign, its rounded significand
    [m <= 2^24] and the exponent [ex] of its unit in the last place. *)
Definition binary32_bits (s : bool) (m ex : Z) : Z :=
  let '(m, ex) := if m =? 2 ^ 24 then (2 ^ 23, ex + 1) else (m, ex) in
  let biased := if m <? 2 ^ 23 then 0 else ex + 150 in
  (if s then 2 ^ 31 else 0) + biased * 2 ^ 23 + m mod 2 ^ 23.

(** [struct.pack(">f", x)]: [x] is rounded to binary32; a finite [x] that
    rounds to an infinity raises [OverflowError]. *)
Definition pack_f (x : float) : result (list Z) :=
  match x with
  | Infinite s => Ok (big_endian 4 ((if s then 2 ^ 31 else 0) + 255 * 2 ^ 23))
  | Finite s m e =>
      if m =? 0 then Ok (big_endian 4 (if s then 2 ^ 31 else 0))
      else
        let num := if 0 <=? e then m * 2 ^ e else m in
        let den := if 0 <=? e then 1 else 2 ^ (- e) in
        let '(m', ex) := round_even 24 (-149) num den in
        if 128 <=? Z.log2 m' + ex then Raise OverflowError_float
        else Ok (big_endian 4 (binary32_bits s m' ex))
  end.

End Struct.

(** ** snap7.server._init_standard_values *)

(** [range(start, stop)], [zip], [ord], [len] *)
Definition range (start stop : nat) : list nat := seq start (stop - start).
Definition ord (c : N) : Z := Z.of_N c.

(** [for x in xs: ba = body(ba, x)], leaving at the first exception. *)
Fixpoint for_each {A S : Type} (xs : list A) (body : S -> A -> result S)
  (s : S) : result S :=
  match xs with
  | [] => Ok s
  | x :: xs' => s' ← body s x; for_each xs' body s'
  end.

Definition _init_standard_values : result Bytearray.t :=
  let ba := Bytearray.zeros 1000 in
  (* 1. Bool 1 byte *)
  ba ← Bytearray.setitem ba 0 0xAA;
  (* 2. Small int 1 byte *)
  v ← Struct.pack_b (-128); let ba := Bytearray.setslice ba 10 (10 + 1) v in
  v ← Struct.pack_b 0; let ba := Bytearray.setslice ba 11 (11 + 1) v in
  v ← Struct.pack_b 100; let ba := Bytearray.setslice ba 12 (12 + 1) v in
  v ← Struct.pack_b 127; let ba := Bytearray.setslice ba 13 (13 + 1) v in
  (* 3. Unsigned small int 1 byte *)
  v ← Struct.pack_B 0; let ba := Bytearray.setslice ba 20 (20 + 1) v in
  v ← Struct.pack_B 255; let ba := Bytearray.setslice ba 21 (21 + 1) v in
  (* 4. Int 2 bytes *)
  v ← Struct.pack_h (-32768); let ba := Bytearray.setslice ba 30 (30 + 2) v in
  v ← Struct.pack_h (-1234); let ba := Bytearray.setslice ba 32 (32 + 2) v in
  v ← Struct.pack_h 0; let ba := Bytearray.setslice ba 34 (34 + 2) v in
  v ← Struct.pack_h 1234; let ba := Bytearray.setslice ba 36 (36 + 2) v in
  v ← Struct.pack_h 32767; let ba := Bytearray.setslice ba 38 (38 + 2) v in
  (* 5. DInt 4 bytes *)
  v ← Struct.pack_i (-2147483648); let ba := Bytearray.setslice ba 40 (40 + 4) v in
  v ← Struct.pack_i (-32768); let ba := Bytearray.setslice ba 44 (44 + 4) v in
  v ← Struct.pack_i 0; let ba := Bytearray.setslice ba 48 (48 + 4) v in
  v ← Struct.pack_i 32767; let ba := Bytearray.setslice ba 52 (52 + 4) v in
  v ← Struct.pack_i 2147483647; let ba := Bytearray.setslice ba 56 (56 + 4) v in
  (* 6. Real 4 bytes *)
  v ← Struct.pack_f (Struct.neg (Struct.literal 3402823 6 38));
  let ba := Bytearray.setslice ba 60 (60 + 4) v in
  v ← Struct.pack_f (Struct.neg (Struct.literal 3402823 6 12));
  let ba := Bytearray.setslice ba 64 (64 + 4) v in
  v ← Struct.pack_f (Struct.neg (Struct.literal 175494351 0 (-38)));
  let ba := Bytearray.setslice ba 68 (68 + 4) v in
  v ← Struct.pack_f (Struct.neg (Struct.literal 1175494351 9 (-12)));
  let ba := Bytearray.setslice ba 72 (72 + 4) v in
  v ← Struct.pack_f (Struct.literal 0 1 0);
  let ba := Bytearray.setslice ba 76 (76 + 4) v in
  v ← Struct.pack_f (Struct.literal 1175494351 9 (-38));
  let ba := Bytearray.setslice ba 80 (80 + 4) v in
  v ← Struct.pack_f (Struct.literal 1175494351 9 (-12));
  let ba := Bytearray.setslice ba 84 (84 + 4) v in
  v ← Struct.pack_f (Struct.literal 3402823466 9 12);
  let ba := Bytearray.setslice ba 88 (88 + 4) v in
  v ← Struct.pack_f (Struct.literal 3402823466 9 38);
  let ba := Bytearray.setslice ba 92 (92 + 4) v in
  (* 7. String 1 byte per char *)
  let string := Py.lit "the brown fox jumps over the lazy dog" in
  ba ← Bytearray.setitem ba 100 254;
  ba ← Bytearray.setitem ba 101 (Z.of_nat (length string));
  ba ← for_each (combine string (range 102 (102 + length string + 1)))
         (fun ba '(letter, i) => Bytearray.setitem ba i (ord letter)) ba;
  (* 8. WORD 4 bytes *)
  let ba := Bytearray.setslice ba 400 (400 + 4) [0x00; 0x00] in
  let ba := Bytearray.setslice ba 404 (404 + 4) [0x12; 0x34] in
  let ba := Bytearray.setslice ba 408 (408 + 4) [0xab; 0xcd] in
  let ba := Bytearray.setslice ba 412 (412 + 4) [0xff; 0xff] in
  (* 9 DWORD 8 bytes *)
  let ba := Bytearray.setslice ba 500 (500 + 8) [0x00; 0x00; 0x00; 0x00] in
  let ba := Bytearray.setslice ba 508 (508 + 8) [0x12; 0x34; 0x56; 0x78] in
  let ba := Bytearray.setslice ba 516 (516 + 8) [0x12; 0x34; 0xab; 0xcd] in
  let ba := Bytearray.setslice ba 524 (524 + 8) [0xff; 0xff; 0xff; 0xff] in
  Ok ba.

(** ** The data model of the specification *)

Module Spec.

(** Modelled from the spec: the closed DataType enumeration of the data
    model.  The source has no such type: its parser stores the type token
    as text. *)
Inductive DataType : Type :=
| Bool | Byte | Char | WChar | Int8 | UInt8 | Int16 | UInt16 | Int32 | UInt32
| Real32 | Real64 | String (length : N) | WString (length : N)
| S5Time | Time | Date | TimeOfDay | DateTimeLong | FixedBytes (n : N).

(** Modelled from the spec: a decimal numeral, one or more of the digits
    "0" to "9", as the offset and length tokens of the examples are. *)
Definition digit (c : N) : option N :=
  if ((48 <=? c) && (c <=? 57))%N then Some (c - 48)%N else None.

Fixpoint decimal_from (acc : N) (s : Py.str) : option N :=
  match s with
  | [] => Some acc
  | c :: s' => d ← digit c; decimal_from (10 * acc + d)%N s'
  end.

Definition decimal (s : Py.str) : option N :=
  match s with
  | [] => None
  | _ => decimal_from 0%N s
  end.

(** Modelled from the spec: the offset of a Field Descriptor read from an
    offset token, "either an integer byte offset (e.g. 13) or a byte.bit
    pair (e.g. 12.3)", the bit being one of 0..7.  The source keeps the
    token as text; the code that reads it (snap7/util/db.py) is not under
    src/. *)
Definition offset_of_token (token : Py.str) : option (N * option N) :=
  match Py.split_sep 46%N token with
  | [byte] => b ← decimal byte; Some (b, None)
  | [byte; bit] =>
      b ← decimal byte; i ← decimal bit;
      if (i <=? 7)%N then Some (b, Some i) else None
  | _ => None
  end.

(** Modelled from the spec: upper case of an ASCII letter, type tokens
    being matched "case-insensitively". *)
Definition upper (c : N) : N :=
  if ((97 <=? c) && (c <=? 122))%N then (c - 32)%N else c.

(** Modelled from the spec: the type tokens of fixed width, named after the
    accessors the source imports (get_bool, get_int, get_real, ...). *)
Definition fixed_types : list (Py.str * DataType) :=
  [(Py.lit "BOOL", Bool); (Py.lit "BYTE", Byte); (Py.lit "CHAR", Char);
   (Py.lit "WCHAR", WChar); (Py.lit "SINT", Int8); (Py.lit "USINT", UInt8);
   (Py.lit "INT", Int16); (Py.lit "UINT", UInt16); (Py.lit "WORD", UInt16);
   (Py.lit "DINT", Int32); (Py.lit "UDINT", UInt32); (Py.lit "DWORD", UInt32);
   (Py.lit "REAL", Real32); (Py.lit "LREAL", Real64);
   (Py.lit "S5TIME", S5Time); (Py.lit "TIME", Time); (Py.lit "DATE", Date);
   (Py.lit "TOD", TimeOfDay); (Py.lit "DT", DateTimeLong);
   (Py.lit "DTL", DateTimeLong)].

(** Modelled from the spec: the type tokens "carrying a bracketed length
    (e.g. STRING[6])". *)
Definition sized_types : list (Py.str * (N -> DataType)) :=
  [(Py.lit "STRING", String); (Py.lit "WSTRING", WString);
   (Py.lit "FSTRING", FixedBytes)].

Fixpoint assoc {A : Type} (k : Py.str) (table : list (Py.str * A)) : option A :=
  match table with
  | [] => None
  | (k', a) :: table' => if decide (k' = k) then Some a else assoc k table'
  end.

(** Modelled from the spec: "Type tokens map onto the DataType enumeration
    case-insensitively"; a token that maps onto none is unknown. *)
Definition type_of_token (token : Py.str) : option DataType :=
  match Py.split_sep 91%N (List.map upper token) with
  | [name] => assoc name fixed_types
  | [name; len] =>
      match rev len with
      | c :: digits =>
          if (c =? 93)%N
          then n ← decimal (rev digits); f ← assoc name sized_types; Some (f n)
          else None
      | [] => None
      end
  | _ => None
  end.

(** Modelled from the spec: the Field Descriptor an entry of the parsed
    specification stands for, when its two tokens can be read. *)
Definition descriptor (entry : Py.str * (Py.str * Py.str))
  : option (Py.str * (N * option N) * DataType) :=
  let '(name, (index, _type)) := entry in
  o ← offset_of_token index; t ← type_of_token _type; Some (name, o, t).

End Spec.

(** ** Vocabulary of the statements *)

(** The lines of a layout text, and those the loop body handles. *)
Definition lines_of (text : Py.str) : list Py.str := Py.split_sep Py.nl text.

Definition selected_lines (text : Py.str) : list Py.str :=
  List.filter line_selected (lines_of text).

(** A blank line has no character that is not whitespace; a comment line
    has "#" as its first such character. *)
Definition blank (line : Py.str) : bool := forallb Py.isspace line.

Definition comment (line : Py.str) : bool :=
  Py.startswith (Py.lstrip line) Py.hash.

(** A selected line is well formed when it has three tokens; the entry
    it then stores is made of these. *)
Definition well_formed (line : Py.str) : Prop := length (line_tokens line) = 3%nat.

Definition line_index (line : Py.str) : Py.str := nth 0 (line_tokens line) [].
Definition line_name (line : Py.str) : Py.str := nth 1 (line_tokens line) [].
Definition line_type (line : Py.str) : Py.str := nth 2 (line_tokens line) [].

Definition line_entry (line : Py.str) : Py.str * (Py.str * Py.str) :=
  (line_name line, (line_index line, line_type line)).

Definition store (parsed : specification) (entry : Py.str * (Py.str * Py.str))
  : specification :=
  OrderedDict.setitem entry.1 entry.2 parsed.

Definition declared_names (text : Py.str) : list Py.str :=
  List.map line_name (selected_lines text).

(** The exception of unpacking [n] tokens, [n] not three. *)
Definition unpack_error (n : nat) : exn :=
  if (n <? 3)%nat then ValueError_not_enough_values 3 n
  else ValueError_too_many_values 3.

(** A sequence of names without its repetitions: each name at the place of
    its first occurrence. *)
Fixpoint first_occurrences (names : list Py.str) : list Py.str :=
  match names with
  | [] => []
  | n :: names' =>
      n :: List.filter (fun m => negb (bool_decide (m = n)))
             (first_occurrences names')
  end.

(** Membership of a name in a sequence of names. *)
Definition mem (n : Py.str) (names : list Py.str) : bool :=
  existsb (fun m => bool_decide (m = n)) names.

(** A layout is complete for a text when every selected line of the text
    is well formed and the layout is what storing all of them, in order,
    builds. *)
Definition complete_for (text : Py.str) (layout : specification) : Prop :=
  Forall well_formed (selected_lines text) /\
  layout = fold_left store (List.map line_entry (selected_lines text))
             OrderedDict.empty.

(** ** Inputs of the examples *)

Definition four_line_layout : Py.str :=
  Py.join Py.nl [Py.lit "4 ID INT"; Py.lit "6 NAME STRING[6]";
                 Py.lit "12.0 testbool1 BOOL"; Py.lit "13 testReal REAL"].

Definition whitespace_line_layout : Py.str :=
  Py.join Py.nl [Py.lit "4 ID INT"; Py.lit "   "; Py.lit "13 testReal REAL"].

Definition failing_layout : Py.str :=
  Py.join Py.nl [Py.lit "4 ID INT"; Py.lit "abc badtoken";
                 Py.lit "13 testReal REAL"].

Definition overlapping_layout : Py.str :=
  Py.join Py.nl [Py.lit "4 A DWORD"; Py.lit "6 B INT"; Py.lit "0 C REAL"].

Definition duplicate_layout : Py.str :=
  Py.join Py.nl [Py.lit "2 X INT"; Py.lit "4 ID INT"; Py.lit "6 NAME STRING[6]";
                 Py.lit "8 ID DINT"; Py.lit "13 testReal REAL"].

Definition fox : Py.str := Py.lit "the brown fox jumps over the lazy dog".

(** ** snap7.util.print_row *)

Module Builtins.

(** [len(s)] *)
Definition len (s : Py.str) : Z := Z.of_nat (length s).

(** [n * c] for a one-character string [c]: empty when [n <= 0]. *)
Definition times (n : Z) (c : N) : Py.str := replicate (Z.to_nat n) c.

(** The digits of [n >= 0], least significant first, put in front of
    [acc]; [fuel] bounds their number. *)
Fixpoint decimal_digits (fuel : nat) (n : Z) (acc : Py.str) : Py.str :=
  match fuel with
  | O => acc
  | S fuel' =>
      let acc' := Z.to_N (48 + n mod 10) :: acc in
      if n <? 10 then acc' else decimal_digits fuel' (n / 10) acc'
  end.

(** [str(n)] for an integer: its decimal numeral, after "-" when [n < 0].
    A number has no more decimal digits than binary ones. *)
Definition str_int (n : Z) : Py.str :=
  let numeral m := decimal_digits (S (Z.to_nat (Z.log2 m))) m [] in
  if n <? 0 then 45%N :: numeral (- n) else numeral n.

(** [int(s)] for a decimal numeral [s] with an optional "-"; [None] stands
    for ValueError. *)
Fixpoint int_digits (acc : Z) (s : Py.str) : option Z :=
  match s with
  | [] => Some acc
  | c :: s' =>
      if ((48 <=? c) && (c <=? 57))%N
      then int_digits (10 * acc + (Z.of_N c - 48)) s'
      else None
  end.

Definition int_str (s : Py.str) : option Z :=
  match s with
  | [] => None
  | c :: s' =>
      if (c =? 45)%N
      then match s' with
           | [] => None
           | _ => option_map Z.opp (int_digits 0 s')
           end
      else int_digits 0 s
  end.

(** [chr(i)], for [i] in [range(0x110000)], which every item of a
    bytearray is. *)
Definition chr (i : Z) : N := Z.to_N i.

(** [enumerate(data)] *)
Definition enumerate {A : Type} (data : list A) : list (nat * A) :=
  combine (seq 0 (length data)) data.

End Builtins.

Definition space : N := 32%N.
Definition comma : N := 44%N.

(** [asci.match(c)] for [asci = re.compile("[a-zA-Z0-9 ]")] and a string
    [c] of one character. *)
Definition asci_match (c : N) : bool :=
  ((97 <=? c) && (c <=? 122) || (65 <=? c) && (c <=? 90) ||
   (48 <=? c) && (c <=? 57) || (c =? 32))%N.

(** The three lines under construction. *)
Record row_lines : Type := RowLines {
  index_line : Py.str;
  pri_line1 : Py.str;
  chr_line2 : Py.str
}.

(** The body of the loop, for the item [xi] at index [i]. *)
Definition print_row_body (lines : row_lines) (item : nat * Z) : row_lines :=
  let '(i, xi) := item in
  (* index *)
  let index_line :=
    if Z.of_nat i mod 5 =? 0 then
      let diff := Builtins.len (pri_line1 lines) - Builtins.len (index_line lines) in
      let index_line := index_line lines ++ Builtins.times diff space in
      index_line ++ Builtins.str_int (Z.of_nat i)
    else index_line lines in
  (* byte array line *)
  let str_v := Builtins.str_int xi in
  let pri_line1 := pri_line1 lines ++ Builtins.str_int xi ++ [comma] in
  (* char line *)
  let c := Builtins.chr xi in
  let c := if asci_match c then c else space in
  (* align white space *)
  let w := Builtins.len str_v in
  let c := c :: Builtins.times (w - 1) space ++ [comma] in
  let chr_line2 := chr_line2 lines ++ c in
  RowLines index_line pri_line1 chr_line2.

(** The lines when the loop is left. *)
Definition print_row_lines (data : Bytearray.t) : row_lines :=
  fold_left print_row_body (Builtins.enumerate data) (RowLines [] [] []).

(** [print_row(data)]: the lines it prints, in order. *)
Definition print_row (data : Bytearray.t) : list Py.str :=
  let lines := print_row_lines data in
  [index_line lines; pri_line1 lines; chr_line2 lines].

(** The text of one byte in the byte line, and the column at which the
    text of the byte at index [k] begins. *)
Definition byte_cell (xi : Z) : Py.str := Builtins.str_int xi ++ [comma].

Definition column (k : nat) (data : Bytearray.t) : nat :=
  length (flat_map byte_cell (take k data)).

(** The character shown for a byte in the character line. *)
Definition shown (xi : Z) : N :=
  if asci_match (Builtins.chr xi) then Builtins.chr xi else space.

(** The text of one byte in the character line. *)
Definition char_cell (xi : Z) : Py.str :=
  shown xi ::
  Builtins.times (Builtins.len (Builtins.str_int xi) - 1) space ++ [comma].

(** ** The table of the standard values *)

(** [int.from_bytes(bs, "big", signed=signed)] *)
Definition int_from_bytes (signed : bool) (bs : list Z) : Z :=
  let u := fold_left (fun acc b => acc * 256 + b) bs 0 in
  let bound := 256 ^ Z.of_nat (length bs) in
  if signed && (bound <=? 2 * u) then u - bound else u.

(** A row of integers: offset, width in bytes on the wire, signedness and
    value. *)
Definition row (offset width : nat) (signed : bool) (value : Z)
  : nat * nat * bool * Z := (offset, width, signed, value).

(** The integer rows of the table in the docstring of
    [_init_standard_values]. *)
Definition documented_integers : list (nat * nat * bool * Z) :=
  [ row 10 1 true (-128); row 11 1 true 0; row 12 1 true 100;
    row 13 1 true 127;
    row 20 1 false 0; row 21 1 false 255;
    row 30 2 true (-32768); row 32 2 true (-1234); row 34 2 true 0;
    row 36 2 true 1234; row 38 2 true 32767;
    row 40 4 true (-2147483648); row 44 4 true (-32768); row 48 4 true 0;
    row 52 4 true 32767; row 56 4 true 2147483647;
    row 400 2 false 0x0000; row 404 2 false 0x1234;
    row 408 2 false 0xabcd; row 412 2 false 0xffff;
    row 500 4 false 0x00000000; row 508 4 false 0x12345678;
    row 516 4 false 0x1234abcd; row 524 4 false 0xffffffff ].

(** The offsets of the Real rows of that table. *)
Definition documented_reals : list nat := [60; 64; 68; 72; 76; 80; 84; 88; 92]%nat.

(** Whether the byte at index [i] lies in a row of the table: the Bool byte,
    an integer row, a Real row or the string at byte 100. *)
Definition in_documented_row (i : nat) : bool :=
  (i =? 0)%nat ||
  existsb (fun '(offset, width, _, _) =>
             (offset <=? i)%nat && (i <? offset + width)%nat)
          documented_integers ||
  existsb (fun offset => (offset <=? i)%nat && (i <? offset + 4)%nat)
          documented_reals ||
  (100 <=? i)%nat && (i <? 102 + 37)%nat.

(** ** The class of an exception *)

(** The name of the Python class of an exception. *)
Definition exception_class (e : exn) : Py.str :=
  match e with
  | ValueError_not_enough_values _ _ => Py.lit "ValueError"
  | ValueError_too_many_values _ => Py.lit "ValueError"
  | ValueError_byte_range => Py.lit "ValueError"
  | IndexError_bytearray => Py.lit "IndexError"
  | struct_error => Py.lit "struct.error"
  | OverflowError_float => Py.lit "OverflowError"
  end.

(** ** Further vocabulary *)

(** The value the last selected line declaring [name] stores, if any. *)
Definition last_declaration (name : Py.str) (text : Py.str)
  : option (Py.str * Py.str) :=
  option_map snd
    (List.find (fun e => bool_decide (fst e = name))
       (rev (List.map line_entry (selected_lines text)))).

(** A clean token: not empty, and without whitespace and without "#". *)
Definition clean (token : Py.str) : Prop :=
  token <> [] /\
  forall c, In c token -> Py.isspace c = false /\ c <> Py.hash.

(** ** The lines of a layout text *)

(** Whitespace inside a line: blank, and without a newline. *)
Definition padding (ws : Py.str) : Prop := blank ws = true /\ ~ In Py.nl ws.

(** The lines a layout text is written with: the empty line, a comment
    line, and a line that declares a field, with whitespace around its
    three tokens and possibly an inline comment. *)
Inductive layout_line : Type :=
| Empty_line
| Comment_line (indent text : Py.str)
| Field_line (indent index sep1 name sep2 type_ trail : Py.str)
    (note : option Py.str).

Definition inline_comment (note : option Py.str) : Py.str :=
  match note with
  | Some text => Py.hash :: text
  | None => []
  end.

Definition render (l : layout_line) : Py.str :=
  match l with
  | Empty_line => []
  | Comment_line indent text => indent ++ Py.hash :: text
  | Field_line indent index sep1 name sep2 type_ trail note =>
      indent ++ index ++ sep1 ++ name ++ sep2 ++ type_ ++ trail ++
      inline_comment note
  end.

Definition shaped (l : layout_line) : Prop :=
  match l with
  | Empty_line => True
  | Comment_line indent text => padding indent /\ ~ In Py.nl text
  | Field_line indent index sep1 name sep2 type_ trail note =>
      padding indent /\ clean index /\
      (padding sep1 /\ sep1 <> []) /\ clean name /\
      (padding sep2 /\ sep2 <> []) /\ clean type_ /\
      padding trail /\
      match note with
      | Some text => ~ In Py.nl text
      | None => True
      end
  end.





Definition layout_text (ls : list layout_line) : Py.str :=
  Py.join Py.nl (List.map render ls).

(** The fields the lines declare, in order: name, offset token and type
    token. *)
Definition field_of (l : layout_line) : list (Py.str * (Py.str * Py.str)) :=
  match l with
  | Field_line _ index _ name _ type_ _ _ => [(name, (index, type_))]
  | _ => []
  end.

Definition fields_of (ls : list layout_line)
  : list (Py.str * (Py.str * Py.str)) :=
  flat_map field_of ls.


(** Modelled from the spec: the wire width in bytes of the integer and
    real types, "signed/unsigned integer of width 1/2/4 bytes, IEEE float
    of width 4/8 bytes". *)
Definition spec_width (t : Spec.DataType) : option N :=
  match t with
  | Spec.Int8 | Spec.UInt8 => Some 1%N
  | Spec.Int16 | Spec.UInt16 => Some 2%N
  | Spec.Int32 | Spec.UInt32 | Spec.Real32 => Some 4%N
  | Spec.Real64 => Some 8%N
  | _ => None
  end.

(** Modelled from the spec: the byte range [first, past the last) a field
    of such a type occupies, and whether two ranges overlap. *)
Definition byte_range (entry : Py.str * (Py.str * Py.str)) : option (N * N) :=
  '(_, (offset, _), t) ← Spec.descriptor entry;
  width ← spec_width t;
  Some (offset, (offset + width)%N).

Definition ranges_overlap (r1 r2 : N * N) : bool :=
  ((fst r1 <? snd r2) && (fst r2 <? snd r1))%N.

(** A text with indentation, tabs, comments and an empty line, whose fields
    overlap and whose offsets go down. *)
Definition overlapping_lines : list layout_line :=
  [ Field_line [] (Py.lit "4") (Py.lit " ") (Py.lit "A") (Py.lit " ")
      (Py.lit "DWORD") [] None;
    Comment_line (Py.lit "  ") (Py.lit " B lies inside A");
    Field_line (Py.lit "  ") (Py.lit "6") [9%N] (Py.lit "B") (Py.lit "  ")
      (Py.lit "INT") (Py.lit " ") (Some (Py.lit " a word"));
    Empty_line;
    Field_line [] (Py.lit "0") (Py.lit " ") (Py.lit "C") (Py.lit " ")
      (Py.lit "REAL") [] None ].

(** * Theorems *)

(** ** Sanity checks of the embedding *)

Example parse_specification_doc_example :
  parse_specification
    (Py.join Py.nl [Py.lit "4   ID  INT"; Py.lit ""; Py.lit "  # x";
                    Py.lit "12.0 testbool1 BOOL # first bit"]) =
  Ok [(Py.lit "ID", (Py.lit "4", Py.lit "INT"));
      (Py.lit "testbool1", (Py.lit "12.0", Py.lit "BOOL"))].
Proof. vm_compute. reflexivity. Qed.

(** ** Python strings *)

Section PyFacts.
Implicit Types (s a b : Py.str) (sep c : N).

Lemma split_sep_not_nil sep s : Py.split_sep sep s <> [].
Proof.
  destruct s as [|c s]; simpl; [discriminate|].
  destruct (c =? sep)%N; [discriminate|].
  destruct (Py.split_sep sep s); discriminate.
Qed.

Lemma split_sep_app sep a b :
  Py.split_sep sep (a ++ sep :: b) = Py.split_sep sep a ++ Py.split_sep sep b.
Proof.
  induction a as [|c a IH]; simpl.
  - rewrite N.eqb_refl. reflexivity.
  - destruct (c =? sep)%N; rewrite IH; [reflexivity|].
    pose proof (split_sep_not_nil sep a) as Hne.
    destruct (Py.split_sep sep a); [contradiction|reflexivity].
Qed.

Lemma split_sep_no_sep sep s : ~ In sep s -> Py.split_sep sep s = [s].
Proof.
  induction s as [|c s IH]; simpl; intros Hnot; [reflexivity|].
  destruct (N.eqb_spec c sep) as [->|Hne]; [tauto|].
  rewrite IH by tauto. reflexivity.
Qed.

Lemma split_sep_join sep (pieces : list Py.str) :
  pieces <> [] -> Forall (fun p => ~ In sep p) pieces ->
  Py.split_sep sep (Py.join sep pieces) = pieces.
Proof.
  induction pieces as [|p ps IH]; [congruence|].
  intros _ Hall. apply Forall_cons_1 in Hall as [Hp Hps].
  destruct ps as [|q ps]; simpl.
  - apply split_sep_no_sep, Hp.
  - change (Py.split_sep sep (p ++ sep :: Py.join sep (q :: ps)) = p :: q :: ps).
    rewrite split_sep_app, IH, split_sep_no_sep by (assumption || discriminate).
    reflexivity.
Qed.

Lemma item0_split_sep_app sep a b :
  Py.item0 (Py.split_sep sep (a ++ sep :: b)) = Py.item0 (Py.split_sep sep a).
Proof.
  rewrite split_sep_app. pose proof (split_sep_not_nil sep a).
  destruct (Py.split_sep sep a); [contradiction|reflexivity].
Qed.

Lemma lstrip_app_hash a b :
  Py.lstrip (a ++ Py.hash :: b) = Py.lstrip a ++ Py.hash :: b.
Proof.
  induction a as [|c a IH]; simpl; [reflexivity|].
  destruct (Py.isspace c); [exact IH|reflexivity].
Qed.

Lemma lstrip_blank s : forallb Py.isspace s = true -> Py.lstrip s = [].
Proof.
  induction s as [|c s IH]; simpl; [reflexivity|].
  destruct (Py.isspace c); simpl; [exact IH|discriminate].
Qed.

Lemma lstrip_not_blank s :
  forallb Py.isspace s = false -> Py.lstrip s <> [].
Proof.
  induction s as [|c s IH]; simpl; [discriminate|].
  destruct (Py.isspace c); simpl; [exact IH|discriminate].
Qed.
(** The tokens of [split]: runs of characters that are not whitespace,
    none empty, which together are the characters of the string that are
    not whitespace, in order. *)
Lemma split_tokens s :
  concat (Py.split s) = List.filter (fun c => negb (Py.isspace c)) s /\
  Forall (fun tok => tok <> [] /\
                     forallb (fun c => negb (Py.isspace c)) tok = true)
         (Py.split s).
Proof.
  induction s as [|c s [IHc IHf]]; [split; [reflexivity|constructor]|].
  assert (Py.split (c :: s) =
          if Py.isspace c then Py.split s
          else match s with
               | [] => [[c]]
               | c' :: _ =>
                   if Py.isspace c' then [c] :: Py.split s
                   else match Py.split s with
                        | tok :: toks => (c :: tok) :: toks
                        | [] => [[c]]
                        end
               end) as -> by (destruct s; reflexivity).
  cbn [List.filter]. destruct (Py.isspace c) eqn:Hc; simpl negb; cbv iota.
  { split; assumption. }
  assert (forall tok, forallb (fun c => negb (Py.isspace c)) tok = true ->
            c :: tok <> [] /\
            forallb (fun c => negb (Py.isspace c)) (c :: tok) = true) as Hcons.
  { intros tok Htok. split; [discriminate|]. simpl. rewrite Hc, Htok. reflexivity. }
  rewrite <- IHc. destruct s as [|c' s].
  { split; [reflexivity|]. constructor; [apply Hcons; reflexivity|constructor]. }
  destruct (Py.isspace c').
  { split; [reflexivity|]. constructor; [apply Hcons; reflexivity|assumption]. }
  destruct (Py.split (c' :: s)) as [|tok toks].
  { split; [reflexivity|]. constructor; [apply Hcons; reflexivity|constructor]. }
  split; [reflexivity|].
  apply Forall_cons_1 in IHf as [[_ Htok] Htoks].
  constructor; [apply Hcons, Htok|assumption].
Qed.
End PyFacts.

(** ** OrderedDict *)

Section DictFacts.
Context {V : Type}.
Implicit Types (d : OrderedDict.t V) (k : Py.str) (v : V).

Lemma keys_setitem_In k v d :
  In k (OrderedDict.keys d) ->
  OrderedDict.keys (OrderedDict.setitem k v d) = OrderedDict.keys d.
Proof.
  induction d as [|[k' v'] d IH]; simpl; [tauto|].
  intros Hin. case_decide as Hk; simpl; [congruence|].
  f_equal. apply IH. destruct Hin; [contradiction|assumption].
Qed.

Lemma setitem_fresh k v d :
  ~ In k (OrderedDict.keys d) -> OrderedDict.setitem k v d = d ++ [(k, v)].
Proof.
  induction d as [|[k' v'] d IH]; simpl; [reflexivity|].
  intros Hnot. case_decide as Hk; [tauto|].
  rewrite IH by tauto. reflexivity.
Qed.

Lemma get_setitem k k' v d :
  OrderedDict.get k' (OrderedDict.setitem k v d) =
  if decide (k = k') then Some v else OrderedDict.get k' d.
Proof.
  induction d as [|[k0 v0] d IH]; simpl.
  - repeat case_decide; congruence.
  - repeat (case_decide; simpl); try congruence;
      rewrite IH; case_decide; congruence.
Qed.

Lemma get_app_fresh k (d1 d2 : OrderedDict.t V) :
  ~ In k (OrderedDict.keys d1) ->
  OrderedDict.get k (d1 ++ d2) = OrderedDict.get k d2.
Proof.
  induction d1 as [|[k0 v0] d1 IH]; simpl; [reflexivity|].
  intros Hnot. case_decide; [tauto|]. apply IH. tauto.
Qed.
End DictFacts.

Lemma filter_filter_and {A : Type} (f g h : A -> bool) (l : list A) :
  (forall x, h x = f x && g x) ->
  List.filter f (List.filter g l) = List.filter h l.
Proof.
  intros Hh. induction l as [|x l IH]; simpl; [reflexivity|].
  rewrite Hh. destruct (g x); simpl.
  - rewrite andb_true_r. destruct (f x); congruence.
  - rewrite andb_false_r. exact IH.
Qed.

Lemma mem_In (n : Py.str) (names : list Py.str) :
  mem n names = true <-> In n names.
Proof.
  unfold mem. rewrite existsb_exists. split.
  - intros (m & Hm & Heq). apply bool_decide_eq_true in Heq. congruence.
  - intros Hin. exists n. split; [assumption|]. apply bool_decide_eq_true. reflexivity.
Qed.

Lemma mem_not_In (n : Py.str) (names : list Py.str) :
  mem n names = false <-> ~ In n names.
Proof. rewrite <- mem_In. destruct (mem n names); split; congruence. Qed.

Lemma first_occurrences_In (names : list Py.str) (n : Py.str) :
  In n (first_occurrences names) <-> In n names.
Proof.
  induction names as [|m names IH]; simpl; [tauto|].
  rewrite filter_In, IH, negb_true_iff, bool_decide_eq_false.
  destruct (decide (m = n)); [tauto|]. split; [tauto|].
  intros [?|?]; [tauto|]. right. split; [assumption|congruence].
Qed.

Lemma first_occurrences_NoDup (names : list Py.str) :
  List.NoDup (first_occurrences names).
Proof.
  induction names as [|m names IH]; simpl; constructor.
  - rewrite filter_In, negb_true_iff, bool_decide_eq_false. tauto.
  - apply List.NoDup_filter, IH.
Qed.

Lemma first_occurrences_distinct (names : list Py.str) :
  List.NoDup names -> first_occurrences names = names.
Proof.
  induction 1 as [|m names Hm _ IH]; simpl; [reflexivity|].
  rewrite IH. f_equal. apply forallb_filter_id, forallb_forall.
  intros x Hx. rewrite negb_true_iff, bool_decide_eq_false. congruence.
Qed.

(** The keys after a run of stores: the old keys, then the new names in the
    order of their first occurrences. *)
Lemma keys_fold_store (es : list (Py.str * (Py.str * Py.str))) (d : specification) :
  OrderedDict.keys (fold_left store es d) =
  OrderedDict.keys d ++
  List.filter (fun m => negb (mem m (OrderedDict.keys d)))
    (first_occurrences (List.map fst es)).
Proof.
  revert d. induction es as [|[k v] es IH]; intros d; simpl.
  - rewrite app_nil_r. reflexivity.
  - rewrite IH. unfold store at 1 2; simpl.
    destruct (mem k (OrderedDict.keys d)) eqn:Hmem; simpl.
    + pose proof (proj1 (mem_In _ _) Hmem) as Hin.
      rewrite keys_setitem_In by assumption. f_equal.
      symmetry. apply filter_filter_and. intros x.
      destruct (decide (x = k)) as [->|Hne].
      * rewrite (proj2 (mem_In _ _) Hin). reflexivity.
      * rewrite (bool_decide_eq_false_2 (x = k)), andb_true_r by assumption.
        reflexivity.
    + pose proof (proj1 (mem_not_In _ _) Hmem) as Hnot.
      rewrite setitem_fresh by assumption.
      unfold OrderedDict.keys. rewrite map_app, <- app_assoc. simpl. do 2 f_equal.
      symmetry. apply filter_filter_and. intros x.
      rewrite <- negb_orb. f_equal.
      apply eq_true_iff_eq.
      rewrite orb_true_iff, !mem_In, bool_decide_eq_true, in_app_iff. simpl.
      intuition congruence.
Qed.

Lemma get_fold_store_fresh (es : list (Py.str * (Py.str * Py.str)))
  (d : specification) (k : Py.str) :
  ~ In k (List.map fst es) ->
  OrderedDict.get k (fold_left store es d) = OrderedDict.get k d.
Proof.
  revert d. induction es as [|[k0 v0] es IH]; intros d Hnot; simpl; [reflexivity|].
  simpl in Hnot. rewrite IH by tauto. unfold store; simpl.
  rewrite get_setitem. case_decide; [tauto|reflexivity].
Qed.

Lemma fold_store_distinct (es : list (Py.str * (Py.str * Py.str)))
  (d : specification) :
  List.NoDup (OrderedDict.keys d ++ List.map fst es) ->
  fold_left store es d = d ++ es.
Proof.
  revert d. induction es as [|[k v] es IH]; intros d Hnd; simpl.
  - rewrite app_nil_r. reflexivity.
  - assert (~ In k (OrderedDict.keys d)) as Hk.
    { intros Hin. apply NoDup_remove_2 in Hnd. apply Hnd, in_or_app. tauto. }
    unfold store at 2; simpl. rewrite setitem_fresh by assumption.
    rewrite IH.
    + rewrite <- app_assoc. reflexivity.
    + unfold OrderedDict.keys in *. rewrite map_app, <- app_assoc. exact Hnd.
Qed.

(** ** The loop of parse_specification *)

Lemma unpack3_well_formed (tokens : list Py.str) :
  length tokens = 3%nat ->
  unpack3 tokens = Ok (nth 0 tokens [], nth 1 tokens [], nth 2 tokens []).
Proof.
  destruct tokens as [|a [|b [|c [|? ?]]]]; simpl; intros; try discriminate.
  reflexivity.
Qed.

Lemma unpack3_malformed (tokens : list Py.str) :
  length tokens <> 3%nat ->
  unpack3 tokens = Raise (unpack_error (length tokens)).
Proof.
  destruct tokens as [|a [|b [|c [|? ?]]]]; simpl; intros; try reflexivity.
  congruence.
Qed.

Lemma well_formed_dec (line : Py.str) : {well_formed line} + {~ well_formed line}.
Proof. unfold well_formed. apply Nat.eq_dec. Qed.

Lemma parse_lines_skip line rest parsed :
  line_selected line = false ->
  parse_lines (line :: rest) parsed = parse_lines rest parsed.
Proof. intros H. simpl. rewrite H. reflexivity. Qed.

Lemma parse_lines_store line rest parsed :
  line_selected line = true -> well_formed line ->
  parse_lines (line :: rest) parsed =
  parse_lines rest (store parsed (line_entry line)).
Proof.
  intros Hsel Hwf. simpl. rewrite Hsel, unpack3_well_formed by exact Hwf.
  reflexivity.
Qed.

Lemma parse_lines_raise line rest parsed :
  line_selected line = true -> ~ well_formed line ->
  parse_lines (line :: rest) parsed =
  Raise (unpack_error (length (line_tokens line))).
Proof.
  intros Hsel Hwf. simpl. rewrite Hsel, unpack3_malformed by exact Hwf.
  reflexivity.
Qed.

(** The loop returns exactly when every selected line is well formed, and
    then all of them are stored, in order. *)
Lemma parse_lines_Ok lines parsed :
  Forall well_formed (List.filter line_selected lines) ->
  parse_lines lines parsed =
  Ok (fold_left store (List.map line_entry (List.filter line_selected lines)) parsed).
Proof.
  revert parsed. induction lines as [|line rest IH]; intros parsed Hall.
  - reflexivity.
  - simpl in Hall. destruct (line_selected line) eqn:Hsel.
    + apply Forall_cons_1 in Hall as [Hwf Hall].
      rewrite parse_lines_store by assumption.
      rewrite IH by assumption. simpl. rewrite Hsel. reflexivity.
    + rewrite parse_lines_skip by assumption.
      rewrite IH by assumption. simpl. rewrite Hsel. reflexivity.
Qed.

(** The loop raises exactly when some selected line is not well formed; the
    exception is that of the first such line. *)
Lemma parse_lines_Raise lines parsed :
  ~ Forall well_formed (List.filter line_selected lines) ->
  exists before line after,
    List.filter line_selected lines = before ++ line :: after /\
    Forall well_formed before /\ ~ well_formed line /\
    parse_lines lines parsed = Raise (unpack_error (length (line_tokens line))).
Proof.
  revert parsed. induction lines as [|line rest IH]; intros parsed Hnot.
  - exfalso. apply Hnot. constructor.
  - simpl in Hnot. destruct (line_selected line) eqn:Hsel.
    + destruct (well_formed_dec line) as [Hwf|Hwf].
      * destruct (IH (store parsed (line_entry line))) as (b & l & a & Hf & Hb & Hl & Hp).
        { intros Hall. apply Hnot. constructor; assumption. }
        exists (line :: b), l, a.
        rewrite parse_lines_store by assumption.
        simpl. rewrite Hsel, Hf.
        repeat split; try assumption. constructor; assumption.
      * exists [], line, (List.filter line_selected rest).
        rewrite parse_lines_raise by assumption.
        simpl. rewrite Hsel. repeat split; [constructor|assumption].
    + destruct (IH parsed Hnot) as (b & l & a & Hf & Hb & Hl & Hp).
      exists b, l, a.
      rewrite parse_lines_skip by assumption.
      simpl. rewrite Hsel. repeat split; assumption.
Qed.

Lemma Forall_well_formed_dec (lines : list Py.str) :
  {Forall well_formed lines} + {~ Forall well_formed lines}.
Proof. apply List.Forall_dec, well_formed_dec. Qed.

Lemma parse_lines_Ok_inv lines parsed l :
  parse_lines lines parsed = Ok l ->
  Forall well_formed (List.filter line_selected lines) /\
  l = fold_left store (List.map line_entry (List.filter line_selected lines)) parsed.
Proof.
  intros Hok.
  destruct (Forall_well_formed_dec (List.filter line_selected lines)) as [Hall|Hnot].
  - split; [assumption|]. rewrite parse_lines_Ok in Hok by assumption. congruence.
  - destruct (parse_lines_Raise lines parsed Hnot) as (? & ? & ? & _ & _ & _ & Hp).
    congruence.
Qed.

Lemma parse_lines_app lines1 lines2 parsed :
  parse_lines (lines1 ++ lines2) parsed =
  parsed' ← parse_lines lines1 parsed; parse_lines lines2 parsed'.
Proof.
  revert parsed. induction lines1 as [|line rest IH]; intros parsed; simpl.
  - reflexivity.
  - destruct (line_selected line); [|apply IH].
    destruct (unpack3 (line_tokens line)) as [[[i n] t]|e]; simpl; [apply IH|reflexivity].
Qed.

Lemma selected_of_not_blank (line : Py.str) :
  blank line = false -> comment line = false -> line_selected line = true.
Proof.
  unfold blank, comment, line_selected. intros Hb Hc. rewrite Hc.
  destruct line; [discriminate|reflexivity].
Qed.

Lemma parse_specification_Ok text :
  Forall well_formed (selected_lines text) ->
  parse_specification text =
  Ok (fold_left store (List.map line_entry (selected_lines text)) OrderedDict.empty).
Proof. apply parse_lines_Ok. Qed.

Lemma parse_specification_Ok_inv text layout :
  parse_specification text = Ok layout -> complete_for text layout.
Proof. apply parse_lines_Ok_inv. Qed.

Lemma parse_specification_Raise text line :
  In line (lines_of text) -> line_selected line = true -> ~ well_formed line ->
  exists n, n <> 3%nat /\ parse_specification text = Raise (unpack_error n).
Proof.
  intros Hin Hsel Hwf.
  destruct (parse_lines_Raise (lines_of text) OrderedDict.empty)
    as (b & l & a & _ & _ & Hl & Hp).
  - intros Hall. apply Hwf. rewrite List.Forall_forall in Hall. apply Hall.
    apply filter_In. split; assumption.
  - exists (length (line_tokens l)). split; [exact Hl|exact Hp].
Qed.

(** ** Properties of parse_specification *)

(** C1. Parsing the four-line layout text with the lines "4 ID INT",
    "6 NAME STRING[6]", "12.0 testbool1 BOOL" and "13 testReal REAL" yields
    a layout of four entries in that order.  Each entry carries the offset
    and type tokens of its line as text; read with the data model of the
    specification they are the offsets 4, 6, (12, bit 0), 13 and the types
    Int16, String(6), Bool, Real32. *)
Theorem parse_four_line_layout :
  let layout :=
    [(Py.lit "ID", (Py.lit "4", Py.lit "INT"));
     (Py.lit "NAME", (Py.lit "6", Py.lit "STRING[6]"));
     (Py.lit "testbool1", (Py.lit "12.0", Py.lit "BOOL"));
     (Py.lit "testReal", (Py.lit "13", Py.lit "REAL"))] in
  parse_specification four_line_layout = Ok layout /\
  length layout = 4%nat /\
  List.map Spec.descriptor layout =
    [Some (Py.lit "ID", (4%N, None), Spec.Int16);
     Some (Py.lit "NAME", (6%N, None), Spec.String 6);
     Some (Py.lit "testbool1", (12%N, Some 0%N), Spec.Bool);
     Some (Py.lit "testReal", (13%N, None), Spec.Real32)].
Proof. repeat split; vm_compute; reflexivity. Qed.

(** C2, as stated, fails: a line of three tokens whose offset token is no
    number and whose type token is unknown is stored as it is, and the
    exception of a line with a wrong token count is the same for different
    offending lines, so it does not identify the line. *)
Lemma malformed_line_accepted_counterexample :
  let line := Py.lit "abc NAME badtoken" in
  (In line (lines_of line) /\ blank line = false /\ comment line = false /\
   Spec.offset_of_token (Py.lit "abc") = None /\
   Spec.type_of_token (Py.lit "badtoken") = None /\
   parse_specification line =
     Ok [(Py.lit "NAME", (Py.lit "abc", Py.lit "badtoken"))]) /\
  (parse_specification (Py.lit "abc badtoken") =
     Raise (ValueError_not_enough_values 3 2) /\
   parse_specification (Py.lit "13 testReal") =
     Raise (ValueError_not_enough_values 3 2)).
Proof. repeat split; vm_compute; auto. Qed.

(** C2, amended: for every layout text containing a non-blank, non-comment
    line whose token count, once an inline comment is dropped, is not
    three, parse_specification fails the whole parse with the exception of
    unpacking a wrong number of values. *)
Theorem wrong_token_count_fails (text line : Py.str) :
  In line (lines_of text) -> blank line = false -> comment line = false ->
  length (line_tokens line) <> 3%nat ->
  exists n, n <> 3%nat /\ parse_specification text = Raise (unpack_error n).
Proof.
  intros Hin Hb Hc Hn.
  apply (parse_specification_Raise text line Hin); [|exact Hn].
  apply selected_of_not_blank; assumption.
Qed.

Lemma wrong_token_count_fails_witness :
  exists n, n <> 3%nat /\
    parse_specification failing_layout = Raise (unpack_error n).
Proof.
  apply (wrong_token_count_fails failing_layout (Py.lit "abc badtoken")).
  - vm_compute. tauto.
  - reflexivity.
  - reflexivity.
  - vm_compute. lia.
Defined.

(** C3, as stated, fails: the parse of the line "abc badtoken" does fail,
    but the exception is the builtin ValueError of unpacking two values
    into three targets; the code defines and raises no ParseError. *)
Lemma two_token_line_error_counterexample :
  parse_specification (Py.lit "abc badtoken") =
    Raise (ValueError_not_enough_values 3 2) /\
  exception_class (ValueError_not_enough_values 3 2) = Py.lit "ValueError" /\
  exception_class (ValueError_not_enough_values 3 2) <> Py.lit "ParseError" /\
  (forall e, exception_class e <> Py.lit "ParseError").
Proof.
  split; [vm_compute; reflexivity|]. split; [reflexivity|].
  split; [discriminate|]. intros e. destruct e; discriminate.
Qed.

Lemma exception_class_unpack_error (n : nat) :
  exception_class (unpack_error n) = Py.lit "ValueError".
Proof. unfold unpack_error. destruct (n <? 3)%nat; reflexivity. Qed.

(** C3, amended: a layout text that contains the two-token line
    "abc badtoken" fails the whole parse with the builtin ValueError of
    unpacking a wrong number of values, which is "not enough values to
    unpack (expected 3, got 2)" when every selected line above that line
    has three tokens; and parsing is all or nothing: a parse that raises
    returns no layout, and a layout that is returned is complete for the
    text, never the layout of some of its lines only. *)
Theorem two_token_line_fails_whole_parse (text : Py.str) :
  In (Py.lit "abc badtoken") (lines_of text) ->
  (exists n, n <> 3%nat /\
             parse_specification text = Raise (unpack_error n) /\
             exception_class (unpack_error n) = Py.lit "ValueError" /\
             forall layout, parse_specification text <> Ok layout) /\
  (forall above below,
     lines_of text = above ++ Py.lit "abc badtoken" :: below ->
     Forall well_formed (List.filter line_selected above) ->
     parse_specification text = Raise (ValueError_not_enough_values 3 2)) /\
  (forall text' layout,
     parse_specification text' = Ok layout -> complete_for text' layout).
Proof.
  intros Hin. split; [|split].
  - destruct (parse_specification_Raise text (Py.lit "abc badtoken") Hin)
      as (n & Hn & Hp).
    + reflexivity.
    + vm_compute. lia.
    + exists n. split; [exact Hn|]. split; [exact Hp|].
      split; [apply exception_class_unpack_error|].
      intros layout. rewrite Hp. discriminate.
  - intros above below Hlines Habove. unfold parse_specification.
    fold (lines_of text). rewrite Hlines, parse_lines_app.
    rewrite parse_lines_Ok by exact Habove.
    assert (~ well_formed (Py.lit "abc badtoken")) as Hbad by (vm_compute; lia).
    exact (parse_lines_raise (Py.lit "abc badtoken") below _ eq_refl Hbad).
  - apply parse_specification_Ok_inv.
Qed.

Lemma two_token_line_fails_whole_parse_witness :
  (exists n, n <> 3%nat /\
             parse_specification failing_layout = Raise (unpack_error n) /\
             exception_class (unpack_error n) = Py.lit "ValueError" /\
             forall layout, parse_specification failing_layout <> Ok layout) /\
  (forall above below,
     lines_of failing_layout = above ++ Py.lit "abc badtoken" :: below ->
     Forall well_formed (List.filter line_selected above) ->
     parse_specification failing_layout =
       Raise (ValueError_not_enough_values 3 2)) /\
  (forall text' layout,
     parse_specification text' = Ok layout -> complete_for text' layout).
Proof.
  apply (two_token_line_fails_whole_parse failing_layout).
  vm_compute. tauto.
Defined.

(** C4, at the failing input: a line of three spaces between two well-formed
    lines is blank, yet it is not skipped: the parse raises the exception of
    unpacking no token. *)
Theorem whitespace_only_line_raises :
  In (Py.lit "   ") (lines_of whitespace_line_layout) /\
  blank (Py.lit "   ") = true /\
  parse_specification whitespace_line_layout =
    Raise (ValueError_not_enough_values 3 0).
Proof. repeat split; vm_compute; tauto. Qed.

(** The part of C4 the code does: an empty line and a comment line
    contribute nothing and never make the parse fail, wherever they are. *)
Lemma empty_or_comment_line_skipped (above below : list Py.str)
  (line : Py.str) (parsed : specification) :
  line = [] \/ comment line = true ->
  parse_lines (above ++ line :: below) parsed =
  parse_lines (above ++ below) parsed.
Proof.
  intros Hline. rewrite !parse_lines_app.
  destruct (parse_lines above parsed) as [parsed'|e]; simpl; [|reflexivity].
  assert (line_selected line = false) as ->; [|reflexivity].
  unfold line_selected, comment in *.
  destruct Hline as [-> | ->]; [reflexivity|apply andb_false_r].
Qed.

(** Every line of whitespace only makes the parse fail. *)
Lemma whitespace_only_line_fails (text line : Py.str) :
  In line (lines_of text) -> line <> [] -> blank line = true ->
  exists e, parse_specification text = Raise e.
Proof.
  intros Hin Hne Hb.
  assert (Py.lstrip line = []) as Hl by (apply lstrip_blank, Hb).
  destruct (parse_specification_Raise text line Hin) as (n & _ & Hp).
  - unfold line_selected. rewrite Hl. destruct line; [congruence|reflexivity].
  - unfold well_formed, line_tokens. rewrite Hl. simpl. lia.
  - eauto.
Qed.

Lemma filter_not_mem_nil (names : list Py.str) :
  List.filter (fun m => negb (mem m [])) names = names.
Proof. apply forallb_filter_id, forallb_forall. reflexivity. Qed.

Lemma keys_stored_lines (lines : list Py.str) :
  OrderedDict.keys (fold_left store (List.map line_entry lines) OrderedDict.empty) =
  first_occurrences (List.map line_name lines).
Proof.
  rewrite keys_fold_store. simpl. rewrite filter_not_mem_nil, List.map_map.
  reflexivity.
Qed.

(** C5. For every well-formed layout text, iterating the returned layout
    visits the field names in the order in which their lines appear in the
    text: each name at the place of the first line that declares it, and,
    when no name is declared twice, the names line by line. *)
Theorem iteration_follows_line_order (text : Py.str) (layout : specification) :
  parse_specification text = Ok layout ->
  OrderedDict.keys layout = first_occurrences (declared_names text) /\
  (List.NoDup (declared_names text) ->
   OrderedDict.keys layout = declared_names text).
Proof.
  intros Hok. apply parse_specification_Ok_inv in Hok as [_ ->].
  rewrite keys_stored_lines. split; [reflexivity|].
  apply first_occurrences_distinct.
Qed.

Lemma iteration_follows_line_order_witness :
  let layout :=
    [(Py.lit "ID", (Py.lit "4", Py.lit "INT"));
     (Py.lit "NAME", (Py.lit "6", Py.lit "STRING[6]"));
     (Py.lit "testbool1", (Py.lit "12.0", Py.lit "BOOL"));
     (Py.lit "testReal", (Py.lit "13", Py.lit "REAL"))] in
  OrderedDict.keys layout = first_occurrences (declared_names four_line_layout) /\
  (List.NoDup (declared_names four_line_layout) ->
   OrderedDict.keys layout = declared_names four_line_layout).
Proof.
  apply (iteration_follows_line_order four_line_layout).
  vm_compute. reflexivity.
Defined.

(** Whatever the tokens of the selected lines are, a text whose selected
    lines all have three tokens parses; the names are in the order of
    their lines, and, when no name is declared twice, the result is the
    sequence of the entries of the lines. *)
Lemma well_formed_text_parses (text : Py.str) :
  Forall well_formed (selected_lines text) ->
  exists layout,
    parse_specification text = Ok layout /\
    (forall line, In line (selected_lines text) ->
                  In (line_name line) (OrderedDict.keys layout)) /\
    OrderedDict.keys layout = first_occurrences (declared_names text) /\
    (List.NoDup (declared_names text) ->
     layout = List.map line_entry (selected_lines text)).
Proof.
  intros Hall. eexists. split; [apply parse_specification_Ok, Hall|].
  rewrite keys_stored_lines. repeat split.
  - intros line Hin. apply first_occurrences_In, in_map, Hin.
  - intros Hnd. rewrite fold_store_distinct; [reflexivity|].
    simpl. rewrite List.map_map. exact Hnd.
Qed.

(** A double word at byte 4, a word at byte 6 inside it, and a real at byte
    0 declared last: all three are kept as declared. *)
Example overlapping_layout_parsed :
  parse_specification overlapping_layout =
  Ok [(Py.lit "A", (Py.lit "4", Py.lit "DWORD"));
      (Py.lit "B", (Py.lit "6", Py.lit "INT"));
      (Py.lit "C", (Py.lit "0", Py.lit "REAL"))].
Proof. vm_compute. reflexivity. Qed.

(** ** Inline comments *)

Lemma lstrip_suffix (s : Py.str) (c : N) : In c (Py.lstrip s) -> In c s.
Proof.
  induction s as [|c' s IH]; simpl; [tauto|].
  destruct (Py.isspace c'); simpl; tauto.
Qed.

Lemma split_lstrip (s : Py.str) : Py.split (Py.lstrip s) = Py.split s.
Proof.
  induction s as [|c s IH]; [reflexivity|].
  cbn [Py.lstrip]. destruct (Py.isspace c) eqn:Hc; [|reflexivity].
  rewrite IH. cbn [Py.split]. rewrite Hc. reflexivity.
Qed.

Lemma line_tokens_comment (pre rest : Py.str) :
  line_tokens (pre ++ Py.hash :: rest) = line_tokens pre.
Proof.
  unfold line_tokens. rewrite lstrip_app_hash, item0_split_sep_app. reflexivity.
Qed.

Lemma line_tokens_no_hash (s : Py.str) :
  ~ In Py.hash s -> line_tokens s = Py.split s.
Proof.
  intros Hnot. unfold line_tokens. rewrite split_sep_no_sep.
  - apply split_lstrip.
  - intros Hin. apply Hnot, lstrip_suffix, Hin.
Qed.

Lemma line_selected_comment (pre rest : Py.str) :
  blank pre = false ->
  line_selected (pre ++ Py.hash :: rest) = line_selected pre.
Proof.
  intros Hb. unfold line_selected. rewrite lstrip_app_hash.
  pose proof (lstrip_not_blank pre Hb) as Hl.
  destruct pre as [|c pre]; [discriminate|].
  destruct (Py.lstrip (c :: pre)); [contradiction|reflexivity].
Qed.

Lemma parse_lines_cons_ext (line1 line2 : Py.str) rest parsed :
  line_selected line1 = line_selected line2 ->
  line_tokens line1 = line_tokens line2 ->
  parse_lines (line1 :: rest) parsed = parse_lines (line2 :: rest) parsed.
Proof. intros Hs Ht. simpl. rewrite Hs, Ht. reflexivity. Qed.

(** C9. Whatever follows the first "#" of a non-blank line is ignored before
    the line is cut into tokens: the tokens of the line with an inline
    comment are those of the text before the "#", and a layout text gives
    the same result with and without the comment. *)
Theorem inline_comment_stripped (above below : list Py.str) (pre rest : Py.str) :
  Forall (fun p => ~ In Py.nl p) (above ++ pre :: rest :: below) ->
  blank pre = false ->
  line_tokens (pre ++ Py.hash :: rest) = line_tokens pre /\
  (~ In Py.hash pre -> line_tokens (pre ++ Py.hash :: rest) = Py.split pre) /\
  parse_specification (Py.join Py.nl (above ++ (pre ++ Py.hash :: rest) :: below)) =
  parse_specification (Py.join Py.nl (above ++ pre :: below)).
Proof.
  intros Hnl Hb. split; [apply line_tokens_comment|]. split.
  { intros Hnot. rewrite line_tokens_comment. apply line_tokens_no_hash, Hnot. }
  rewrite List.Forall_app in Hnl. destruct Hnl as [Habove Hnl].
  apply Forall_cons_1 in Hnl as [Hpre Hnl].
  apply Forall_cons_1 in Hnl as [Hrest Hbelow].
  assert (forall line, ~ In Py.nl line ->
            lines_of (Py.join Py.nl (above ++ line :: below)) =
            above ++ line :: below) as Hlines.
  { intros line Hline. apply split_sep_join.
    - destruct above; discriminate.
    - apply List.Forall_app. split; [assumption|]. constructor; assumption. }
  unfold parse_specification. fold (lines_of (Py.join Py.nl (above ++ pre :: below))).
  fold (lines_of (Py.join Py.nl (above ++ (pre ++ Py.hash :: rest) :: below))).
  rewrite !Hlines.
  - rewrite !parse_lines_app.
    destruct (parse_lines above OrderedDict.empty) as [parsed|e]; simpl; [|reflexivity].
    change (parse_lines ((pre ++ Py.hash :: rest) :: below) parsed =
            parse_lines (pre :: below) parsed).
    apply parse_lines_cons_ext.
    + apply line_selected_comment, Hb.
    + apply line_tokens_comment.
  - exact Hpre.
  - intros Hin. apply in_app_or in Hin as [Hin|[Heq|Hin]];
      [tauto|discriminate|tauto].
Qed.

Lemma inline_comment_stripped_witness :
  line_tokens (Py.lit "4 ID INT " ++ Py.hash :: Py.lit " note") =
    line_tokens (Py.lit "4 ID INT ") /\
  (~ In Py.hash (Py.lit "4 ID INT ") ->
   line_tokens (Py.lit "4 ID INT " ++ Py.hash :: Py.lit " note") =
     Py.split (Py.lit "4 ID INT ")) /\
  parse_specification
    (Py.join Py.nl ([Py.lit "# layout"] ++
                    (Py.lit "4 ID INT " ++ Py.hash :: Py.lit " note") ::
                    [Py.lit "6 NAME STRING[6]"])) =
  parse_specification
    (Py.join Py.nl ([Py.lit "# layout"] ++ Py.lit "4 ID INT " ::
                    [Py.lit "6 NAME STRING[6]"])).
Proof.
  apply (inline_comment_stripped [Py.lit "# layout"] [Py.lit "6 NAME STRING[6]"]
           (Py.lit "4 ID INT ") (Py.lit " note")).
  - repeat constructor; vm_compute; intuition discriminate.
  - reflexivity.
Defined.

(** The line "4 ID INT # note" stores the entry of the line "4 ID INT". *)
Example inline_comment_same_entry :
  parse_specification (Py.lit "4 ID INT # note") =
    parse_specification (Py.lit "4 ID INT") /\
  parse_specification (Py.lit "4 ID INT # note") =
    Ok [(Py.lit "ID", (Py.lit "4", Py.lit "INT"))].
Proof. split; vm_compute; reflexivity. Qed.

(** ** A name declared twice *)

Lemma keys_split {V : Type} (d : OrderedDict.t V) (ks1 ks2 : list Py.str) (k : Py.str) :
  OrderedDict.keys d = ks1 ++ k :: ks2 ->
  exists d1 v d2,
    d = d1 ++ (k, v) :: d2 /\
    OrderedDict.keys d1 = ks1 /\ OrderedDict.keys d2 = ks2.
Proof.
  unfold OrderedDict.keys. intros Hk.
  apply List.map_eq_app in Hk as (d1 & d' & -> & Hd1 & Hd').
  apply List.map_eq_cons in Hd' as ([k' v] & d2 & -> & Hk' & Hd2).
  simpl in Hk'. subst k'. exists d1, v, d2. auto.
Qed.

Lemma get_stored_last (es1 es2 : list (Py.str * (Py.str * Py.str)))
  (k : Py.str) (v : Py.str * Py.str) (d : specification) :
  ~ In k (List.map fst es2) ->
  OrderedDict.get k (fold_left store (es1 ++ (k, v) :: es2) d) = Some v.
Proof.
  intros Hnot. rewrite fold_left_app. simpl.
  rewrite get_fold_store_fresh by assumption.
  unfold store; simpl. rewrite get_setitem. case_decide; congruence.
Qed.

(** C10. When two well-formed lines declare the same name, the first of
    them being the first line with that name and the second the last one,
    the layout has exactly one entry for the name; the entry holds the
    offset and type tokens of the later line and stands where the first
    line put the name: after the distinct names of the lines above it. *)
Theorem duplicate_name_keeps_first_place (text : Py.str) (layout : specification)
  (above between below : list Py.str) (line1 line2 : Py.str) :
  parse_specification text = Ok layout ->
  selected_lines text = above ++ line1 :: between ++ line2 :: below ->
  line_name line1 = line_name line2 ->
  ~ In (line_name line1) (List.map line_name above) ->
  ~ In (line_name line2) (List.map line_name below) ->
  exists d1 d2,
    layout = d1 ++ (line_name line2, (line_index line2, line_type line2)) :: d2 /\
    ~ In (line_name line2) (OrderedDict.keys d1) /\
    ~ In (line_name line2) (OrderedDict.keys d2) /\
    OrderedDict.keys d1 = first_occurrences (List.map line_name above).
Proof.
  intros Hok Hsel Hname Habove Hbelow.
  apply parse_specification_Ok_inv in Hok as [_ ->].
  rewrite Hsel. rewrite Hname in Habove. set (n := line_name line2) in *.
  set (v := (line_index line2, line_type line2)).
  set (es := List.map line_entry (above ++ line1 :: between ++ line2 :: below)).
  assert (OrderedDict.get n (fold_left store es OrderedDict.empty) = Some v) as Hget.
  { subst es.
    replace (above ++ line1 :: between ++ line2 :: below)
      with ((above ++ line1 :: between) ++ line2 :: below)
      by (rewrite <- app_assoc; reflexivity).
    rewrite map_app. simpl List.map.
    change (line_entry line2) with (n, v).
    apply get_stored_last. rewrite List.map_map. exact Hbelow. }
  assert (exists ks2,
            OrderedDict.keys (fold_left store es OrderedDict.empty) =
            first_occurrences (List.map line_name above) ++ n :: ks2 /\
            ~ In n ks2) as (ks2 & Hkeys & Hks2).
  { subst es. rewrite map_app, fold_left_app, keys_fold_store, keys_stored_lines.
    simpl List.map. simpl first_occurrences.
    change (fst (line_entry line1)) with (line_name line1). rewrite Hname.
    cbn [List.filter].
    assert (mem n (first_occurrences (List.map line_name above)) = false) as ->.
    { apply mem_not_In. rewrite first_occurrences_In. exact Habove. }
    simpl negb. cbv iota. eexists. split; [reflexivity|].
    rewrite !filter_In, negb_true_iff, bool_decide_eq_false. tauto. }
  destruct (keys_split _ _ _ _ Hkeys) as (d1 & v' & d2 & Hd & Hd1 & Hd2).
  assert (~ In n (OrderedDict.keys d1)) as Hn1.
  { rewrite Hd1, first_occurrences_In. exact Habove. }
  rewrite Hd in Hget. rewrite get_app_fresh in Hget by exact Hn1.
  simpl in Hget. case_decide; [|congruence].
  exists d1, d2. rewrite Hd2. repeat split; try assumption.
  rewrite Hd. congruence.
Qed.

Lemma duplicate_name_keeps_first_place_witness :
  exists d1 d2,
    [(Py.lit "X", (Py.lit "2", Py.lit "INT"));
     (Py.lit "ID", (Py.lit "8", Py.lit "DINT"));
     (Py.lit "NAME", (Py.lit "6", Py.lit "STRING[6]"));
     (Py.lit "testReal", (Py.lit "13", Py.lit "REAL"))] =
    d1 ++ (line_name (Py.lit "8 ID DINT"),
           (line_index (Py.lit "8 ID DINT"), line_type (Py.lit "8 ID DINT"))) :: d2 /\
    ~ In (line_name (Py.lit "8 ID DINT")) (OrderedDict.keys d1) /\
    ~ In (line_name (Py.lit "8 ID DINT")) (OrderedDict.keys d2) /\
    OrderedDict.keys d1 = first_occurrences (List.map line_name [Py.lit "2 X INT"]).
Proof.
  apply (duplicate_name_keeps_first_place duplicate_layout _
           [Py.lit "2 X INT"] [Py.lit "6 NAME STRING[6]"]
           [Py.lit "13 testReal REAL"] (Py.lit "4 ID INT") (Py.lit "8 ID DINT")).
  - vm_compute. reflexivity.
  - vm_compute. reflexivity.
  - vm_compute. reflexivity.
  - vm_compute. intuition discriminate.
  - vm_compute. intuition discriminate.
Defined.

(** ** Properties of _init_standard_values *)

Lemma setslice_length (ba : Bytearray.t) (start stop : nat) (v : list Z) :
  (start <= stop <= length ba)%nat ->
  (length (Bytearray.setslice ba start stop v) + (stop - start) =
   length ba + length v)%nat.
Proof.
  intros H. unfold Bytearray.setslice.
  rewrite !length_app, length_take, length_drop. lia.
Qed.

(** C7. The string stored at byte 100 of the standard values follows the
    counted-string layout: byte 100 is the maximal length 254, byte 101 the
    actual length 37, and the 37 bytes 102..138 are the ASCII codes of
    "the brown fox jumps over the lazy dog". *)
Theorem standard_values_string :
  exists ba,
    _init_standard_values = Ok ba /\
    ba !! 100%nat = Some 254 /\
    ba !! 101%nat = Some 37 /\
    length fox = 37%nat /\
    take 37 (drop 102 ba) = List.map ord fox.
Proof.
  eexists. split; [vm_compute; reflexivity|].
  repeat split; vm_compute; reflexivity.
Qed.

(** C8. The standard values are 976 bytes long, not the 1000 bytes allocated
    at first: assigning two bytes to a slice of four shortens the block by
    two, assigning four bytes to a slice of eight shortens it by four, and
    the function does each four times. *)
Theorem standard_values_length :
  length (Bytearray.zeros 1000) = 1000%nat /\
  (exists ba, _init_standard_values = Ok ba /\ length ba = 976%nat) /\
  (forall ba start x y, (start + 4 <= length ba)%nat ->
     (length (Bytearray.setslice ba start (start + 4) [x; y]) + 2 = length ba)%nat) /\
  (forall ba start x y z w, (start + 8 <= length ba)%nat ->
     (length (Bytearray.setslice ba start (start + 8) [x; y; z; w]) + 4 =
      length ba)%nat) /\
  (1000 - 4 * 2 - 4 * 4 = 976)%nat.
Proof.
  split; [vm_compute; reflexivity|]. split.
  { eexists. split; vm_compute; reflexivity. }
  split; [|split; [|reflexivity]].
  - intros ba start x y H.
    pose proof (setslice_length ba start (start + 4) [x; y]) as Hl.
    simpl length in Hl. lia.
  - intros ba start x y z w H.
    pose proof (setslice_length ba start (start + 8) [x; y; z; w]) as Hl.
    simpl length in Hl. lia.
Qed.

(** ** More on the stored entries *)

Lemma get_fold_store (es : list (Py.str * (Py.str * Py.str)))
  (d : specification) (k : Py.str) :
  OrderedDict.get k (fold_left store es d) =
  match List.find (fun e => bool_decide (fst e = k)) (rev es) with
  | Some e => Some (snd e)
  | None => OrderedDict.get k d
  end.
Proof.
  induction es as [|e es IH] using rev_ind; [reflexivity|].
  rewrite fold_left_app, rev_app_distr. simpl.
  unfold store at 1. rewrite get_setitem.
  destruct (decide (e.1 = k)) as [Heq|Hne].
  - rewrite (bool_decide_eq_true_2 _ Heq). reflexivity.
  - rewrite (bool_decide_eq_false_2 _ Hne). exact IH.
Qed.

Lemma find_name_None (es : list (Py.str * (Py.str * Py.str))) (k : Py.str) :
  List.find (fun e => bool_decide (fst e = k)) es = None <->
  ~ In k (List.map fst es).
Proof.
  induction es as [|e es IH]; simpl; [tauto|].
  destruct (decide (e.1 = k)) as [Heq|Hne].
  - rewrite (bool_decide_eq_true_2 _ Heq). split; [discriminate|tauto].
  - rewrite (bool_decide_eq_false_2 _ Hne), IH. tauto.
Qed.

(** X1. Looking a name up in the parsed specification gives the tokens of
    the last selected line that declares it, and nothing exactly when no
    selected line declares it. *)
Theorem lookup_last_declaration (text : Py.str) (layout : specification)
  (name : Py.str) :
  parse_specification text = Ok layout ->
  OrderedDict.get name layout = last_declaration name text /\
  (OrderedDict.get name layout = None <-> ~ In name (declared_names text)).
Proof.
  intros Hok. apply parse_specification_Ok_inv in Hok as [_ ->].
  assert (OrderedDict.get name
            (fold_left store (List.map line_entry (selected_lines text))
               OrderedDict.empty) = last_declaration name text) as Hget.
  { rewrite get_fold_store. unfold last_declaration.
    destruct (List.find _ _); reflexivity. }
  split; [exact Hget|]. rewrite Hget. unfold last_declaration, declared_names.
  destruct (List.find _ _) as [e|] eqn:Hfind; simpl.
  - split; [discriminate|]. intros Hnot. exfalso.
    apply find_some in Hfind as [Hin Heq]. apply bool_decide_eq_true in Heq.
    apply Hnot. apply in_rev, in_map_iff in Hin as (line & <- & Hline).
    simpl in Heq. rewrite <- Heq. apply in_map, Hline.
  - split; [|reflexivity]. intros _.
    apply find_name_None in Hfind. intros Hin. apply Hfind.
    apply in_map_iff in Hin as (line & <- & Hline).
    apply in_map_iff. exists (line_entry line). split; [reflexivity|].
    rewrite <- in_rev. apply in_map, Hline.
Qed.

Lemma lookup_last_declaration_witness :
  OrderedDict.get (Py.lit "ID")
    [(Py.lit "X", (Py.lit "2", Py.lit "INT"));
     (Py.lit "ID", (Py.lit "8", Py.lit "DINT"));
     (Py.lit "NAME", (Py.lit "6", Py.lit "STRING[6]"));
     (Py.lit "testReal", (Py.lit "13", Py.lit "REAL"))] =
    last_declaration (Py.lit "ID") duplicate_layout /\
  (OrderedDict.get (Py.lit "ID")
     [(Py.lit "X", (Py.lit "2", Py.lit "INT"));
      (Py.lit "ID", (Py.lit "8", Py.lit "DINT"));
      (Py.lit "NAME", (Py.lit "6", Py.lit "STRING[6]"));
      (Py.lit "testReal", (Py.lit "13", Py.lit "REAL"))] = None <->
   ~ In (Py.lit "ID") (declared_names duplicate_layout)).
Proof.
  apply (lookup_last_declaration duplicate_layout).
  vm_compute. reflexivity.
Defined.

Lemma first_occurrences_length (names : list Py.str) :
  (length (first_occurrences names) <= length names)%nat.
Proof.
  induction names as [|n names IH]; simpl; [lia|].
  pose proof (List.filter_length_le
                (fun m => negb (bool_decide (m = n))) (first_occurrences names)).
  lia.
Qed.

(** X2. The parsed specification never holds a name twice, and it has as
    many entries as the selected lines declare distinct names: at most one
    entry per selected line, and one per line exactly when no name is
    declared twice. *)
Theorem layout_keys_distinct (text : Py.str) (layout : specification) :
  parse_specification text = Ok layout ->
  List.NoDup (OrderedDict.keys layout) /\
  (length layout <= length (selected_lines text))%nat /\
  (length layout = length (selected_lines text) <->
   List.NoDup (declared_names text)).
Proof.
  intros Hok. apply parse_specification_Ok_inv in Hok as [_ ->].
  pose proof (keys_stored_lines (selected_lines text)) as Hkeys.
  fold (declared_names text) in Hkeys.
  assert (length (fold_left store (List.map line_entry (selected_lines text))
                    OrderedDict.empty) =
          length (first_occurrences (declared_names text))) as Hlen.
  { rewrite <- Hkeys. unfold OrderedDict.keys. rewrite length_map. reflexivity. }
  assert (length (declared_names text) = length (selected_lines text)) as Hsel.
  { unfold declared_names. apply length_map. }
  pose proof (first_occurrences_length (declared_names text)) as Hle.
  split; [rewrite Hkeys; apply first_occurrences_NoDup|].
  split; [lia|]. rewrite Hlen, <- Hsel. split.
  - intros Heq. apply List.NoDup_incl_NoDup with (l := first_occurrences (declared_names text)).
    + apply first_occurrences_NoDup.
    + lia.
    + intros n Hn. apply first_occurrences_In, Hn.
  - intros Hnd. rewrite first_occurrences_distinct by exact Hnd. reflexivity.
Qed.

Lemma layout_keys_distinct_witness :
  let layout :=
    [(Py.lit "X", (Py.lit "2", Py.lit "INT"));
     (Py.lit "ID", (Py.lit "8", Py.lit "DINT"));
     (Py.lit "NAME", (Py.lit "6", Py.lit "STRING[6]"));
     (Py.lit "testReal", (Py.lit "13", Py.lit "REAL"))] in
  List.NoDup (OrderedDict.keys layout) /\
  (length layout <= length (selected_lines duplicate_layout))%nat /\
  (length layout = length (selected_lines duplicate_layout) <->
   List.NoDup (declared_names duplicate_layout)).
Proof.
  apply (layout_keys_distinct duplicate_layout).
  vm_compute. reflexivity.
Defined.

Lemma store_not_nil (parsed : specification) (e : Py.str * (Py.str * Py.str)) :
  store parsed e <> [].
Proof.
  unfold store. destruct parsed as [|[k v] d]; simpl; [discriminate|].
  case_decide; discriminate.
Qed.

Lemma fold_store_not_nil (es : list (Py.str * (Py.str * Py.str)))
  (d : specification) :
  d <> [] -> fold_left store es d <> [].
Proof.
  revert d. induction es as [|e es IH]; intros d Hd; simpl; [exact Hd|].
  apply IH, store_not_nil.
Qed.

(** X3. The parsed specification is empty exactly when the text has no
    selected line: a text of empty lines and comment lines only, the empty
    text among them, parses to the empty specification, and any selected
    line either fails the parse or leaves an entry. *)
Theorem empty_layout_iff_nothing_selected (text : Py.str) :
  parse_specification text = Ok OrderedDict.empty <-> selected_lines text = [].
Proof.
  split.
  - intros Hok. apply parse_specification_Ok_inv in Hok as [_ Hl].
    destruct (selected_lines text) as [|line rest]; [reflexivity|].
    exfalso. simpl in Hl. symmetry in Hl. revert Hl.
    apply fold_store_not_nil, store_not_nil.
  - intros Hsel. rewrite parse_specification_Ok; rewrite Hsel; [reflexivity|constructor].
Qed.

(** X4. The parse stops at the first selected line that has not three
    tokens: the exception is that of unpacking the tokens of this line,
    whatever the lines below it are. *)
Theorem first_malformed_line_decides (text : Py.str)
  (above below : list Py.str) (line : Py.str) :
  lines_of text = above ++ line :: below ->
  Forall well_formed (List.filter line_selected above) ->
  line_selected line = true ->
  length (line_tokens line) <> 3%nat ->
  parse_specification text = Raise (unpack_error (length (line_tokens line))).
Proof.
  intros Hlines Habove Hsel Hbad. unfold parse_specification.
  fold (lines_of text). rewrite Hlines, parse_lines_app.
  rewrite parse_lines_Ok by exact Habove. simpl mbind.
  apply parse_lines_raise; assumption.
Qed.

Lemma first_malformed_line_decides_witness :
  parse_specification failing_layout =
  Raise (unpack_error (length (line_tokens (Py.lit "abc badtoken")))).
Proof.
  apply (first_malformed_line_decides failing_layout
           [Py.lit "4 ID INT"] [Py.lit "13 testReal REAL"]).
  - vm_compute. reflexivity.
  - vm_compute. repeat constructor.
  - reflexivity.
  - vm_compute. lia.
Defined.

(** ** Texts put together *)

Lemma setitem_app_fresh {V : Type} (d1 d2 : OrderedDict.t V) (k : Py.str) (v : V) :
  ~ In k (OrderedDict.keys d1) ->
  OrderedDict.setitem k v (d1 ++ d2) = d1 ++ OrderedDict.setitem k v d2.
Proof.
  induction d1 as [|[k' v'] d1 IH]; simpl; intros Hnot; [reflexivity|].
  case_decide; [tauto|]. rewrite IH by tauto. reflexivity.
Qed.

Lemma fold_store_app_fresh (es : list (Py.str * (Py.str * Py.str)))
  (d1 d2 : specification) :
  (forall k, In k (List.map fst es) -> ~ In k (OrderedDict.keys d1)) ->
  fold_left store es (d1 ++ d2) = d1 ++ fold_left store es d2.
Proof.
  revert d2. induction es as [|e es IH]; intros d2 Hfresh; simpl; [reflexivity|].
  unfold store at 2 4. rewrite setitem_app_fresh by (apply Hfresh; simpl; tauto).
  apply IH. intros k Hk. apply Hfresh. simpl. tauto.
Qed.

Lemma parse_specification_app (a b : Py.str) :
  parse_specification (a ++ Py.nl :: b) =
  parsed ← parse_specification a; parse_lines (lines_of b) parsed.
Proof.
  unfold parse_specification, lines_of.
  rewrite split_sep_app. apply parse_lines_app.
Qed.

(** X5. Parsing a text [a], a newline and a text [b] is parsing [a] and
    going on with the lines of [b]: an exception of [a] is the exception of
    the whole, whatever [b] is; and when both texts parse and declare no
    name in common, the result is the specification of [a] followed by
    that of [b]. *)
Theorem parse_concatenation (a b : Py.str) :
  (forall e, parse_specification a = Raise e ->
             parse_specification (a ++ Py.nl :: b) = Raise e) /\
  (forall la lb,
     parse_specification a = Ok la -> parse_specification b = Ok lb ->
     (forall name, In name (OrderedDict.keys la) ->
                   ~ In name (OrderedDict.keys lb)) ->
     parse_specification (a ++ Py.nl :: b) = Ok (la ++ lb)).
Proof.
  split.
  - intros e Ha. rewrite parse_specification_app, Ha. reflexivity.
  - intros la lb Ha Hb Hdisj. rewrite parse_specification_app, Ha. simpl mbind.
    apply parse_specification_Ok_inv in Hb as [Hwf ->].
    rewrite parse_lines_Ok by exact Hwf. f_equal.
    rewrite <- (app_nil_r la) at 1. apply fold_store_app_fresh.
    intros k Hk Hin. apply (Hdisj k Hin).
    rewrite keys_stored_lines. apply first_occurrences_In.
    rewrite List.map_map in Hk. exact Hk.
Qed.

Lemma parse_concatenation_witness :
  parse_specification
    (Py.lit "4 ID INT" ++ Py.nl :: Py.lit "6 NAME STRING[6]") =
  Ok ([(Py.lit "ID", (Py.lit "4", Py.lit "INT"))] ++
      [(Py.lit "NAME", (Py.lit "6", Py.lit "STRING[6]"))]).
Proof.
  apply (proj2 (parse_concatenation (Py.lit "4 ID INT") (Py.lit "6 NAME STRING[6]"))).
  - vm_compute. reflexivity.
  - vm_compute. reflexivity.
  - intros name [<-|[]] [H|[]]. discriminate H.
Defined.

(** ** The tokens that are stored *)

Lemma In_setitem {V : Type} (d : OrderedDict.t V) (k : Py.str) (v : V)
  (e : Py.str * V) :
  In e (OrderedDict.setitem k v d) -> e = (k, v) \/ In e d.
Proof.
  induction d as [|[k' v'] d IH]; simpl.
  - intros [H'|[]]; auto.
  - case_decide; simpl; intros [H'|H']; auto.
    destruct (IH H'); auto.
Qed.

Lemma In_fold_store (es : list (Py.str * (Py.str * Py.str)))
  (d : specification) (e : Py.str * (Py.str * Py.str)) :
  In e (fold_left store es d) -> In e es \/ In e d.
Proof.
  revert d. induction es as [|e' es IH]; intros d; simpl; [tauto|].
  intros Hin. destruct (IH _ Hin) as [H'|H']; [tauto|].
  unfold store in H'. apply In_setitem in H' as [->|H']; [|tauto].
  left. left. destruct e'; reflexivity.
Qed.

Lemma item0_split_sep_no_sep (sep : N) (s : Py.str) :
  ~ In sep (Py.item0 (Py.split_sep sep s)).
Proof.
  induction s as [|c s IH]; simpl; [tauto|].
  destruct (N.eqb_spec c sep) as [Heq|Hne]; simpl; [tauto|].
  pose proof (split_sep_not_nil sep s) as Hnil.
  destruct (Py.split_sep sep s) as [|piece pieces]; [contradiction|].
  simpl in *. intros [Hc|Hin]; [congruence|tauto].
Qed.

Lemma line_token_clean (line token : Py.str) :
  In token (line_tokens line) -> clean token.
Proof.
  unfold line_tokens. set (piece := Py.item0 _).
  assert (~ In Py.hash piece) as Hhash by apply item0_split_sep_no_sep.
  clearbody piece. intros Hin.
  destruct (split_tokens piece) as [Hconcat Hall].
  rewrite List.Forall_forall in Hall. destruct (Hall _ Hin) as [Hne Hspace].
  split; [exact Hne|]. intros c Hc. split.
  - rewrite forallb_forall in Hspace. apply negb_true_iff, Hspace, Hc.
  - intros ->. apply Hhash.
    assert (In Py.hash (concat (Py.split piece))) as Hcat.
    { apply in_concat. exists token. split; assumption. }
    rewrite Hconcat in Hcat. apply filter_In in Hcat. tauto.
Qed.

(** X6. Every name, offset token and type token of a parsed specification
    is clean: it is not empty and holds no whitespace and no "#". *)
Theorem stored_tokens_clean (text : Py.str) (layout : specification)
  (name index type_ : Py.str) :
  parse_specification text = Ok layout ->
  In (name, (index, type_)) layout ->
  clean name /\ clean index /\ clean type_.
Proof.
  intros Hok Hin. apply parse_specification_Ok_inv in Hok as [Hwf ->].
  apply In_fold_store in Hin as [Hin|[]].
  apply in_map_iff in Hin as (line & Hentry & Hline).
  rewrite List.Forall_forall in Hwf. specialize (Hwf line Hline).
  unfold well_formed in Hwf. unfold line_entry in Hentry.
  injection Hentry as <- <- <-.
  unfold line_name, line_index, line_type.
  split; [|split]; apply (line_token_clean line); apply nth_In; lia.
Qed.

Lemma stored_tokens_clean_witness :
  clean (Py.lit "NAME") /\ clean (Py.lit "6") /\ clean (Py.lit "STRING[6]").
Proof.
  apply (stored_tokens_clean four_line_layout
           [(Py.lit "ID", (Py.lit "4", Py.lit "INT"));
            (Py.lit "NAME", (Py.lit "6", Py.lit "STRING[6]"));
            (Py.lit "testbool1", (Py.lit "12.0", Py.lit "BOOL"));
            (Py.lit "testReal", (Py.lit "13", Py.lit "REAL"))]).
  - vm_compute. reflexivity.
  - simpl. tauto.
Defined.

(** ** Whitespace around a line *)

Lemma lstrip_app_blank (ws s : Py.str) :
  blank ws = true -> Py.lstrip (ws ++ s) = Py.lstrip s.
Proof.
  unfold blank. induction ws as [|c ws IH]; simpl; [reflexivity|].
  destruct (Py.isspace c); simpl; [exact IH|discriminate].
Qed.

Lemma lstrip_app_not_blank (s t : Py.str) :
  blank s = false -> Py.lstrip (s ++ t) = Py.lstrip s ++ t.
Proof.
  unfold blank. induction s as [|c s IH]; simpl; [discriminate|].
  destruct (Py.isspace c); simpl; [exact IH|reflexivity].
Qed.

Lemma split_cons (c : N) (s : Py.str) :
  Py.split (c :: s) =
  if Py.isspace c then Py.split s
  else match s with
       | [] => [[c]]
       | c' :: _ =>
           if Py.isspace c' then [c] :: Py.split s
           else match Py.split s with
                | tok :: toks => (c :: tok) :: toks
                | [] => [[c]]
                end
       end.
Proof. destruct s; reflexivity. Qed.

Lemma split_blank (ws : Py.str) : blank ws = true -> Py.split ws = [].
Proof.
  unfold blank. induction ws as [|c ws IH]; [reflexivity|].
  rewrite split_cons. simpl. destruct (Py.isspace c); simpl; [exact IH|discriminate].
Qed.

Lemma split_app_blank (s ws : Py.str) :
  blank ws = true -> Py.split (s ++ ws) = Py.split s.
Proof.
  intros Hws. induction s as [|c s IH]; [apply split_blank, Hws|].
  change ((c :: s) ++ ws) with (c :: (s ++ ws)).
  rewrite !split_cons, IH. destruct (Py.isspace c); [reflexivity|].
  destruct s as [|c' s]; [|reflexivity].
  simpl. destruct ws as [|w ws]; [reflexivity|].
  destruct (Py.isspace w); reflexivity.
Qed.

Lemma blank_no_hash (ws : Py.str) : blank ws = true -> ~ In Py.hash ws.
Proof.
  unfold blank. rewrite forallb_forall. intros Hws Hin.
  specialize (Hws _ Hin). discriminate.
Qed.

Lemma line_tokens_trailing (s ws : Py.str) :
  blank ws = true -> line_tokens (s ++ ws) = line_tokens s.
Proof.
  intros Hws. unfold line_tokens. destruct (blank s) eqn:Hs.
  - rewrite lstrip_app_blank by exact Hs.
    rewrite (lstrip_blank ws Hws), (lstrip_blank s Hs). reflexivity.
  - rewrite lstrip_app_not_blank by exact Hs.
    destruct (in_dec N.eq_dec Py.hash (Py.lstrip s)) as [Hin|Hnot].
    + apply in_split in Hin as (a & b & ->).
      rewrite <- app_assoc. simpl. rewrite !item0_split_sep_app. reflexivity.
    + rewrite !split_sep_no_sep.
      * apply split_app_blank, Hws.
      * exact Hnot.
      * intros Hin. apply in_app_or in Hin as [Hin|Hin]; [tauto|].
        revert Hin. apply blank_no_hash, Hws.
Qed.

Lemma line_tokens_leading (ws s : Py.str) :
  blank ws = true -> line_tokens (ws ++ s) = line_tokens s.
Proof. intros Hws. unfold line_tokens. rewrite lstrip_app_blank by exact Hws. reflexivity. Qed.

Lemma line_selected_padding (indent line trail : Py.str) :
  blank indent = true -> blank line = false ->
  line_selected (indent ++ line ++ trail) = line_selected line.
Proof.
  intros Hi Hl. unfold line_selected.
  rewrite lstrip_app_blank, lstrip_app_not_blank by assumption.
  pose proof (lstrip_not_blank line Hl) as Hne.
  destruct line as [|c line]; [discriminate|].
  destruct (Py.lstrip (c :: line)) as [|c' l']; [contradiction|].
  destruct indent; reflexivity.
Qed.

Lemma parse_specification_line_ext (above below : list Py.str) (line1 line2 : Py.str) :
  Forall (fun p => ~ In Py.nl p) (above ++ line1 :: line2 :: below) ->
  line_selected line1 = line_selected line2 ->
  line_tokens line1 = line_tokens line2 ->
  parse_specification (Py.join Py.nl (above ++ line1 :: below)) =
  parse_specification (Py.join Py.nl (above ++ line2 :: below)).
Proof.
  intros Hnl Hsel Htok.
  rewrite List.Forall_app in Hnl. destruct Hnl as [Habove Hnl].
  apply Forall_cons_1 in Hnl as [H1 Hnl].
  apply Forall_cons_1 in Hnl as [H2 Hbelow].
  assert (forall line, ~ In Py.nl line ->
            Py.split_sep Py.nl (Py.join Py.nl (above ++ line :: below)) =
            above ++ line :: below) as Hlines.
  { intros line Hline. apply split_sep_join.
    - destruct above; discriminate.
    - apply List.Forall_app. split; [assumption|]. constructor; assumption. }
  unfold parse_specification. rewrite !Hlines by assumption.
  rewrite !parse_lines_app.
  destruct (parse_lines above OrderedDict.empty) as [parsed|e]; [|reflexivity].
  apply parse_lines_cons_ext; assumption.
Qed.

(** X7. Whitespace before and after a non-blank line is of no effect:
    indentation, trailing blanks, or the carriage return of a line that
    ends in "\r\n", leave the result of the parse as it is. *)
Theorem surrounding_whitespace_ignored (above below : list Py.str)
  (indent line trail : Py.str) :
  Forall (fun p => ~ In Py.nl p) (above ++ indent :: line :: trail :: below) ->
  blank indent = true -> blank trail = true -> blank line = false ->
  parse_specification (Py.join Py.nl (above ++ (indent ++ line ++ trail) :: below)) =
  parse_specification (Py.join Py.nl (above ++ line :: below)).
Proof.
  intros Hnl Hi Ht Hl.
  rewrite List.Forall_app in Hnl. destruct Hnl as [Habove Hnl].
  apply Forall_cons_1 in Hnl as [Hni Hnl].
  apply Forall_cons_1 in Hnl as [Hnline Hnl].
  apply Forall_cons_1 in Hnl as [Hnt Hbelow].
  apply parse_specification_line_ext.
  - apply List.Forall_app. split; [assumption|].
    constructor; [|constructor; assumption].
    intros Hin. apply in_app_or in Hin as [Hin|Hin]; [tauto|].
    apply in_app_or in Hin as [Hin|Hin]; tauto.
  - apply line_selected_padding; assumption.
  - rewrite line_tokens_leading by assumption. apply line_tokens_trailing, Ht.
Qed.

Lemma surrounding_whitespace_ignored_witness :
  parse_specification
    (Py.join Py.nl ([Py.lit "4 ID INT"] ++
                    (Py.lit "    " ++ Py.lit "6 NAME STRING[6]" ++ [13%N]) ::
                    [Py.lit "13 testReal REAL"])) =
  parse_specification
    (Py.join Py.nl ([Py.lit "4 ID INT"] ++ Py.lit "6 NAME STRING[6]" ::
                    [Py.lit "13 testReal REAL"])).
Proof.
  apply (surrounding_whitespace_ignored [Py.lit "4 ID INT"]
           [Py.lit "13 testReal REAL"] (Py.lit "    ")
           (Py.lit "6 NAME STRING[6]") [13%N]).
  - repeat constructor; vm_compute; intuition discriminate.
  - reflexivity.
  - reflexivity.
  - reflexivity.
Defined.

(** ** print_row *)

Example print_row_example :
  print_row [72; 105; 0; 255; 32; 7; 100] =
  [Py.lit "0               5";
   Py.lit "72,105,0,255,32,7,100,";
   Py.lit "H ,i  , ,   ,  , ,d  ,"].
Proof. vm_compute. reflexivity. Qed.

(** *** Decimal numerals *)

Lemma decimal_digits_app (fuel : nat) (n : Z) (acc : Py.str) :
  Builtins.decimal_digits fuel n acc = Builtins.decimal_digits fuel n [] ++ acc.
Proof.
  revert n acc. induction fuel as [|fuel IH]; intros n acc; simpl; [reflexivity|].
  destruct (n <? 10); [reflexivity|].
  rewrite IH, (IH _ [_]), <- app_assoc. reflexivity.
Qed.

Lemma decimal_digits_length_ge (fuel : nat) (n : Z) (acc : Py.str) :
  (length acc + 1 <= length (Builtins.decimal_digits (S fuel) n acc))%nat.
Proof.
  rewrite decimal_digits_app, length_app. simpl.
  destruct (n <? 10); [simpl; lia|].
  rewrite decimal_digits_app, length_app. simpl. lia.
Qed.

Lemma decimal_digits_length_le (fuel k : nat) (n : Z) (acc : Py.str) :
  (1 <= k)%nat -> 0 <= n < 10 ^ Z.of_nat k ->
  (length (Builtins.decimal_digits fuel n acc) <= length acc + k)%nat.
Proof.
  revert k n acc. induction fuel as [|fuel IH]; intros k n acc Hk Hn; simpl; [lia|].
  destruct (Z.ltb_spec n 10) as [Hlt|Hge]; [simpl; lia|].
  destruct k as [|[|k]]; [lia|simpl in Hn; lia|].
  specialize (IH (S k) (n / 10)
                (Z.to_N (48 + n mod 10) :: acc) ltac:(lia)).
  simpl length in IH.
  assert (0 <= n / 10 < 10 ^ Z.of_nat (S k)) as Hdiv.
  { rewrite (Nat2Z.inj_succ (S k)), Z.pow_succ_r in Hn by lia.
    split; [apply Z.div_pos; lia|apply Z.div_lt_upper_bound; lia]. }
  specialize (IH Hdiv). lia.
Qed.

Lemma decimal_digits_chars (fuel : nat) (n : Z) (c : N) :
  0 <= n -> In c (Builtins.decimal_digits fuel n []) -> (48 <= c <= 57)%N.
Proof.
  revert n. induction fuel as [|fuel IH]; intros n Hn; simpl; [tauto|].
  pose proof (Z.mod_pos_bound n 10 ltac:(lia)) as Hmod.
  destruct (n <? 10).
  - intros [<-|[]]. lia.
  - rewrite decimal_digits_app. intros Hin.
    apply in_app_or in Hin as [Hin|[<-|[]]]; [|lia].
    apply (IH (n / 10)); [apply Z.div_pos; lia|exact Hin].
Qed.

Lemma int_digits_app (a : Z) (s1 s2 : Py.str) :
  Builtins.int_digits a (s1 ++ s2) =
  match Builtins.int_digits a s1 with
  | Some a' => Builtins.int_digits a' s2
  | None => None
  end.
Proof.
  revert a. induction s1 as [|c s1 IH]; intros a; simpl; [reflexivity|].
  destruct ((48 <=? c) && (c <=? 57))%N; [apply IH|reflexivity].
Qed.

Lemma int_digits_digit (a m : Z) :
  0 <= m < 10 ->
  Builtins.int_digits a [Z.to_N (48 + m)] = Some (10 * a + m).
Proof.
  intros Hm. simpl.
  assert (((48 <=? Z.to_N (48 + m)) && (Z.to_N (48 + m) <=? 57))%N = true) as ->.
  { apply andb_true_iff. split; apply N.leb_le; lia. }
  f_equal. lia.
Qed.

Lemma decimal_digits_value (fuel : nat) (n a : Z) :
  0 <= n < 10 ^ Z.of_nat fuel ->
  Builtins.int_digits a (Builtins.decimal_digits fuel n []) =
  Some (a * 10 ^ Z.of_nat (length (Builtins.decimal_digits fuel n [])) + n).
Proof.
  revert n a. induction fuel as [|fuel IH]; intros n a Hn.
  - simpl in *. f_equal. lia.
  - cbn [Builtins.decimal_digits].
    pose proof (Z.mod_pos_bound n 10 ltac:(lia)) as Hmod.
    pose proof (Z.div_mod n 10 ltac:(lia)) as Hdiv.
    destruct (Z.ltb_spec n 10) as [Hlt|Hge].
    + rewrite Z.mod_small by lia. rewrite int_digits_digit by lia.
      f_equal. simpl. lia.
    + rewrite decimal_digits_app, int_digits_app.
      rewrite Nat2Z.inj_succ, Z.pow_succ_r in Hn by lia.
      rewrite IH by (split; [apply Z.div_pos; lia|apply Z.div_lt_upper_bound; lia]).
      rewrite int_digits_digit by lia. f_equal.
      rewrite length_app. simpl length. rewrite Nat.add_1_r, Nat2Z.inj_succ.
      rewrite Z.pow_succ_r by lia. lia.
Qed.

Lemma numeral_fuel (m : Z) :
  0 <= m -> m < 10 ^ Z.of_nat (S (Z.to_nat (Z.log2 m))).
Proof.
  intros Hm. pose proof (Z.log2_nonneg m) as Hlog.
  rewrite Nat2Z.inj_succ, Z2Nat.id by exact Hlog.
  destruct (Z.eq_dec m 0) as [->|Hne]; [simpl; lia|].
  destruct (Z.log2_spec m ltac:(lia)) as [_ Hlt].
  eapply Z.lt_le_trans; [exact Hlt|].
  apply Z.pow_le_mono_l. lia.
Qed.

Lemma str_int_length_ge (n : Z) : (1 <= length (Builtins.str_int n))%nat.
Proof.
  unfold Builtins.str_int. destruct (n <? 0); [simpl; lia|].
  pose proof (decimal_digits_length_ge (Z.to_nat (Z.log2 n)) n []). simpl in *. lia.
Qed.

Lemma str_int_length_le (n : Z) :
  0 <= n < 10 ^ 10 -> (length (Builtins.str_int n) <= 10)%nat.
Proof.
  intros Hn. unfold Builtins.str_int.
  destruct (Z.ltb_spec n 0); [lia|].
  apply (decimal_digits_length_le _ 10 n []); [lia|exact Hn].
Qed.

Lemma str_int_no_comma (n : Z) : ~ In comma (Builtins.str_int n).
Proof.
  unfold Builtins.str_int.
  destruct (Z.ltb_spec n 0) as [Hneg|Hpos]; intros Hin.
  - destruct Hin as [Heq|Hin]; [discriminate|].
    apply decimal_digits_chars in Hin; [unfold comma in Hin|]; lia.
  - apply decimal_digits_chars in Hin; [unfold comma in Hin|]; lia.
Qed.

(** Reading back the numeral that [str] writes gives the integer. *)
Lemma int_str_str_int (n : Z) :
  Builtins.int_str (Builtins.str_int n) = Some n.
Proof.
  assert (forall m, 0 <= m ->
            exists c s, Builtins.decimal_digits (S (Z.to_nat (Z.log2 m))) m [] = c :: s /\
                        (48 <= c <= 57)%N /\
                        Builtins.int_digits 0 (c :: s) = Some m) as Hnum.
  { intros m Hm.
    pose proof (decimal_digits_value _ m 0 (conj Hm (numeral_fuel m Hm))) as Hval.
    pose proof (decimal_digits_length_ge (Z.to_nat (Z.log2 m)) m []) as Hlen.
    destruct (Builtins.decimal_digits (S (Z.to_nat (Z.log2 m))) m []) as [|c s] eqn:Hd;
      [simpl in Hlen; lia|].
    exists c, s. split; [reflexivity|]. split.
    - apply (decimal_digits_chars (S (Z.to_nat (Z.log2 m))) m); [exact Hm|].
      rewrite Hd. left. reflexivity.
    - rewrite Hval. f_equal. }
  unfold Builtins.str_int. destruct (Z.ltb_spec n 0) as [Hneg|Hpos].
  - destruct (Hnum (- n) ltac:(lia)) as (c & s & -> & _ & Hval).
    unfold Builtins.int_str. rewrite N.eqb_refl, Hval. simpl. f_equal. lia.
  - destruct (Hnum n Hpos) as (c & s & -> & Hc & Hval).
    unfold Builtins.int_str.
    destruct (N.eqb_spec c 45) as [->|_]; [lia|exact Hval].
Qed.

(** *** The loop of print_row *)

Lemma enumerate_from_snoc {A : Type} (data : list A) (x : A) (i0 : nat) :
  combine (seq i0 (length (data ++ [x]))) (data ++ [x]) =
  combine (seq i0 (length data)) data ++ [((i0 + length data)%nat, x)].
Proof.
  revert i0. induction data as [|y data IH]; intros i0; simpl.
  - rewrite Nat.add_0_r. reflexivity.
  - rewrite IH, Nat.add_succ_r. reflexivity.
Qed.

Lemma print_row_lines_snoc (data : Bytearray.t) (xi : Z) :
  print_row_lines (data ++ [xi]) =
  print_row_body (print_row_lines data) (length data, xi).
Proof.
  unfold print_row_lines, Builtins.enumerate.
  rewrite enumerate_from_snoc, fold_left_app. reflexivity.
Qed.

Lemma flat_map_snoc {A B : Type} (f : A -> list B) (l : list A) (x : A) :
  flat_map f (l ++ [x]) = flat_map f l ++ f x.
Proof. rewrite flat_map_app. simpl. rewrite app_nil_r. reflexivity. Qed.

Lemma byte_and_char_lines (data : Bytearray.t) :
  pri_line1 (print_row_lines data) = flat_map byte_cell data /\
  chr_line2 (print_row_lines data) = flat_map char_cell data.
Proof.
  induction data as [|xi data [IHp IHc]] using rev_ind; [split; reflexivity|].
  rewrite print_row_lines_snoc, !flat_map_snoc. unfold print_row_body. simpl.
  rewrite IHp, IHc. split; reflexivity.
Qed.

Lemma char_cell_length (xi : Z) : length (char_cell xi) = length (byte_cell xi).
Proof.
  unfold char_cell, byte_cell, Builtins.times, Builtins.len.
  pose proof (str_int_length_ge xi).
  simpl. rewrite !length_app, length_replicate. simpl. lia.
Qed.

Lemma cells_length (data : Bytearray.t) :
  length (flat_map char_cell data) = length (flat_map byte_cell data).
Proof.
  induction data as [|xi data IH]; [reflexivity|].
  cbn [flat_map]. rewrite !length_app, char_cell_length, IH. reflexivity.
Qed.

Lemma take_drop_app_middle {A : Type} (l1 l2 l3 : list A) :
  take (length l2) (drop (length l1) (l1 ++ l2 ++ l3)) = l2.
Proof. rewrite drop_app_length, take_app_length. reflexivity. Qed.

(** X8. In the byte line and in the character line every byte begins in the
    same column: at the column of the byte at index [k] the byte line has
    the decimal numeral of the byte, followed by a comma, and the
    character line has the character shown for it; the two lines are
    equally long. *)
Theorem character_under_its_byte (data : Bytearray.t) (k : nat) (xi : Z) :
  data !! k = Some xi ->
  let lines := print_row_lines data in
  take (length (byte_cell xi)) (drop (column k data) (pri_line1 lines)) =
    Builtins.str_int xi ++ [comma] /\
  chr_line2 lines !! column k data = Some (shown xi) /\
  length (pri_line1 lines) = length (chr_line2 lines).
Proof.
  intros Hk lines. destruct (byte_and_char_lines data) as [Hp Hc].
  subst lines. rewrite Hp, Hc. unfold column.
  rewrite <- (take_drop_middle data k xi Hk) at 2 4 5 6.
  rewrite !flat_map_app. simpl flat_map.
  split; [|split].
  - apply take_drop_app_middle.
  - apply list_lookup_middle. symmetry. apply cells_length.
  - change (shown xi :: ?l) with (char_cell xi ++ flat_map char_cell (drop (S k) data)).
    rewrite !length_app, !cells_length, char_cell_length. reflexivity.
Qed.

Lemma character_under_its_byte_witness :
  let data := [72; 105; 0; 255; 32; 7; 100] in
  let lines := print_row_lines data in
  take (length (byte_cell 255)) (drop (column 3 data) (pri_line1 lines)) =
    Builtins.str_int 255 ++ [comma] /\
  chr_line2 lines !! column 3 data = Some (shown 255) /\
  length (pri_line1 lines) = length (chr_line2 lines).
Proof.
  apply (character_under_its_byte [72; 105; 0; 255; 32; 7; 100] 3 255).
  reflexivity.
Defined.

Lemma split_byte_cells (data : Bytearray.t) :
  Py.split_sep comma (flat_map byte_cell data) =
  List.map Builtins.str_int data ++ [[]].
Proof.
  induction data as [|xi data IH]; [reflexivity|].
  cbn [flat_map List.map]. unfold byte_cell at 1.
  rewrite <- app_assoc. simpl app.
  rewrite split_sep_app, IH, split_sep_no_sep by apply str_int_no_comma.
  reflexivity.
Qed.

(** X9. The byte line can be read back: cut at its commas it gives the
    decimal numeral of each byte, in order, and an empty piece after the
    last comma; reading the numerals gives the bytes. *)
Theorem byte_line_reads_back (data : Bytearray.t) :
  let pieces := Py.split_sep comma (pri_line1 (print_row_lines data)) in
  pieces = List.map Builtins.str_int data ++ [[]] /\
  List.map Builtins.int_str (removelast pieces) = List.map Some data.
Proof.
  destruct (byte_and_char_lines data) as [-> _]. cbv zeta.
  rewrite split_byte_cells. split; [reflexivity|].
  rewrite removelast_last, List.map_map. apply map_ext.
  intros xi. apply int_str_str_int.
Qed.

Lemma take_drop_app_inside {A : Type} (l more : list A) (c n : nat) :
  (c + n <= length l)%nat ->
  take n (drop c (l ++ more)) = take n (drop c l).
Proof.
  intros H. rewrite drop_app_le by lia.
  apply take_app_le. rewrite length_drop. lia.
Qed.

Lemma column_snoc (data : Bytearray.t) (xi : Z) (k : nat) :
  (k <= length data)%nat -> column k (data ++ [xi]) = column k data.
Proof. intros H. unfold column. rewrite take_app_le by exact H. reflexivity. Qed.

Lemma column_all (data : Bytearray.t) :
  column (length data) data = length (flat_map byte_cell data).
Proof. unfold column. rewrite take_ge by lia. reflexivity. Qed.

Lemma index_line_invariant (data : Bytearray.t) :
  Z.of_nat (length data) <= 10 ^ 10 ->
  let lines := print_row_lines data in
  Z.of_nat (length (index_line lines)) <=
    Z.of_nat (length (pri_line1 lines)) + 2 * ((- Z.of_nat (length data)) mod 5) /\
  (forall k, (k < length data)%nat -> Z.of_nat k mod 5 = 0 ->
     take (length (Builtins.str_int (Z.of_nat k)))
          (drop (column k data) (index_line lines)) =
     Builtins.str_int (Z.of_nat k)).
Proof.
  induction data as [|xi data IH] using rev_ind; intros Hlen lines.
  { subst lines. split; [vm_compute; discriminate|].
    intros k Hk. simpl in Hk. lia. }
  rewrite length_app in Hlen. simpl length in Hlen.
  destruct (IH ltac:(lia)) as [Hidx Hlabels]. clear IH.
  subst lines. rewrite print_row_lines_snoc.
  set (old := print_row_lines data) in *.
  assert (pri_line1 old = flat_map byte_cell data) as Hpri
      by apply byte_and_char_lines.
  pose proof (str_int_length_ge xi) as Hxi.
  assert (forall k, (k < length data)%nat -> Z.of_nat k mod 5 = 0 ->
            forall more,
              take (length (Builtins.str_int (Z.of_nat k)))
                   (drop (column k (data ++ [xi])) (index_line old ++ more)) =
              Builtins.str_int (Z.of_nat k)) as Hkeep.
  { intros k Hk Hmod more. rewrite column_snoc by lia.
    specialize (Hlabels k Hk Hmod).
    pose proof (str_int_length_ge (Z.of_nat k)) as Hge.
    assert (column k data + length (Builtins.str_int (Z.of_nat k)) <=
            length (index_line old))%nat as Hin.
    { apply (f_equal (@length N)) in Hlabels.
      rewrite length_take, length_drop in Hlabels. lia. }
    rewrite take_drop_app_inside by exact Hin. exact Hlabels. }
  unfold print_row_body. cbn [index_line pri_line1 chr_line2].
  rewrite (length_app data).
  destruct (Z.eqb_spec (Z.of_nat (length data) mod 5) 0) as [Hmod|Hmod].
  - assert ((- Z.of_nat (length data)) mod 5 = 0) as Hopp
        by (apply Z.mod_opp_l_z; lia).
    rewrite Hopp in Hidx.
    pose proof (str_int_length_le (Z.of_nat (length data)) ltac:(lia)) as Hn.
    assert (length (index_line old ++
                    Builtins.times (Builtins.len (pri_line1 old) -
                                    Builtins.len (index_line old)) space) =
            length (pri_line1 old)) as Hpad.
    { unfold Builtins.times, Builtins.len.
      rewrite length_app, length_replicate. lia. }
    split.
    + rewrite (length_app (_ ++ _)), Hpad, !length_app. simpl length.
      clear Hlen Hkeep Hlabels Hpad. Z.div_mod_to_equations. lia.
    + intros k Hk Hkmod. simpl length in Hk. rewrite Nat.add_1_r in Hk.
      destruct (Nat.eq_dec k (length data)) as [->|Hne].
      * rewrite column_snoc, column_all, <- Hpri by lia.
        rewrite drop_app_length' by (symmetry; exact Hpad).
        apply take_ge. lia.
      * rewrite <- app_assoc. apply Hkeep; [lia|exact Hkmod].
  - split.
    + rewrite !length_app. simpl length.
      clear Hlen Hkeep Hlabels. Z.div_mod_to_equations. lia.
    + intros k Hk Hkmod. simpl length in Hk. rewrite Nat.add_1_r in Hk.
      destruct (Nat.eq_dec k (length data)) as [->|Hne]; [contradiction|].
      rewrite <- (app_nil_r (index_line old)). apply Hkeep; [lia|exact Hkmod].
Qed.

(** X10. In the index line the index of every fifth byte stands exactly
    over the byte: for a row of at most 10^10 bytes and every index [k]
    that is a multiple of 5, the index line has the decimal numeral of
    [k] at the column where the byte at index [k] begins in the byte
    line. *)
Theorem index_over_its_byte (data : Bytearray.t) (k : nat) :
  Z.of_nat (length data) <= 10 ^ 10 ->
  (k < length data)%nat -> Z.of_nat k mod 5 = 0 ->
  take (length (Builtins.str_int (Z.of_nat k)))
       (drop (column k data) (index_line (print_row_lines data))) =
  Builtins.str_int (Z.of_nat k).
Proof.
  intros Hlen. destruct (index_line_invariant data Hlen) as [_ Hlabels].
  apply Hlabels.
Qed.

Lemma index_over_its_byte_witness :
  let data := [72; 105; 0; 255; 32; 7; 100] in
  take (length (Builtins.str_int (Z.of_nat 5)))
       (drop (column 5 data) (index_line (print_row_lines data))) =
  Builtins.str_int (Z.of_nat 5).
Proof.
  apply (index_over_its_byte [72; 105; 0; 255; 32; 7; 100] 5).
  - vm_compute. discriminate.
  - simpl. lia.
  - reflexivity.
Defined.

Lemma asci_match_shown (xi : Z) : asci_match (shown xi) = true.
Proof. unfold shown. destruct (asci_match (Builtins.chr xi)) eqn:H; [exact H|reflexivity]. Qed.

(** X11. The character line holds nothing but letters, digits, spaces and
    commas, whatever the bytes are: a byte that is none of the first three
    is shown as a space. *)
Theorem character_line_printable (data : Bytearray.t) (c : N) :
  In c (chr_line2 (print_row_lines data)) ->
  asci_match c = true \/ c = comma.
Proof.
  destruct (byte_and_char_lines data) as [_ ->].
  rewrite in_flat_map. intros (xi & _ & Hc).
  unfold char_cell in Hc. destruct Hc as [<-|Hc]; [left; apply asci_match_shown|].
  apply in_app_or in Hc as [Hc|[<-|[]]]; [|right; reflexivity].
  unfold Builtins.times in Hc. apply list_elem_of_In, elem_of_replicate in Hc as [-> _].
  left. reflexivity.
Qed.

Lemma character_line_printable_witness :
  asci_match 32 = true \/ 32%N = comma.
Proof.
  apply (character_line_printable [72; 105; 0; 255; 32; 7; 100] 32).
  vm_compute. tauto.
Defined.

(** ** The table of the standard values *)

(** X12. The returned block agrees with the table of the docstring: every
    integer, word and double word of the table is read, most significant
    byte first, at its documented offset, the words and double words too,
    although the block shrinks while they are written; byte 0 has the bits
    1, 3, 5 and 7 set (bit 0 the least significant); and every byte
    outside the rows of the table is zero. *)
Theorem standard_values_table :
  exists ba,
    _init_standard_values = Ok ba /\
    Forall (fun '(offset, width, signed, value) =>
              int_from_bytes signed (take width (drop offset ba)) = value)
           documented_integers /\
    (exists byte0, ba !! 0%nat = Some byte0 /\
       forall bit, 0 <= bit < 8 -> Z.testbit byte0 bit = Z.odd bit) /\
    (forall i byte, ba !! i = Some byte ->
                    in_documented_row i = false -> byte = 0).
Proof.
  eexists. split; [vm_compute; reflexivity|]. split; [|split].
  - repeat constructor.
  - eexists. split; [reflexivity|]. intros bit Hbit.
    assert (bit = 0 \/ bit = 1 \/ bit = 2 \/ bit = 3 \/
            bit = 4 \/ bit = 5 \/ bit = 6 \/ bit = 7) as Hcases by lia.
    destruct Hcases as [->|[->|[->|[->|[->|[->|[->| ->]]]]]]]; reflexivity.
  - intros i byte Hi Hrow.
    match type of Hi with ?l !! _ = _ => set (ba := l) in * end.
    assert (forallb (fun i => in_documented_row i ||
                              match ba !! i with
                              | Some b => b =? 0
                              | None => true
                              end)
                    (seq 0 (length ba)) = true) as Hall
        by (vm_compute; reflexivity).
    rewrite forallb_forall in Hall.
    assert (i < length ba)%nat as Hlt by (apply lookup_lt_Some in Hi; exact Hi).
    specialize (Hall i ltac:(apply in_seq; lia)). cbv beta in Hall.
    clearbody ba. unfold Bytearray.t in *. rewrite Hrow in Hall. simpl orb in Hall.
    rewrite Hi in Hall. apply Z.eqb_eq, Hall.
Qed.

(** ** Empty lines and comment lines *)

(** X13. Empty lines and comment lines are no part of the layout: adding
    or removing one anywhere in a text, the first and last line included,
    leaves the result of the parse as it is. *)
Theorem comment_line_removable (above below : list Py.str) (line : Py.str) :
  Forall (fun p => ~ In Py.nl p) (above ++ line :: below) ->
  line = [] \/ comment line = true ->
  parse_specification (Py.join Py.nl (above ++ line :: below)) =
  parse_specification (Py.join Py.nl (above ++ below)).
Proof.
  intros Hnl Hline. unfold parse_specification.
  rewrite split_sep_join by (exact Hnl || (destruct above; discriminate)).
  rewrite empty_or_comment_line_skipped by exact Hline.
  rewrite List.Forall_app in Hnl. destruct Hnl as [Habove Hnl].
  apply Forall_cons_1 in Hnl as [_ Hbelow].
  destruct (above ++ below) as [|l ls] eqn:Hrest; [reflexivity|].
  rewrite split_sep_join; [reflexivity|discriminate|].
  rewrite <- Hrest. apply List.Forall_app. split; assumption.
Qed.

Lemma comment_line_removable_witness :
  parse_specification
    (Py.join Py.nl ([Py.lit "4 ID INT"] ++ Py.lit "  # the name" ::
                    [Py.lit "6 NAME STRING[6]"])) =
  parse_specification
    (Py.join Py.nl ([Py.lit "4 ID INT"] ++ [Py.lit "6 NAME STRING[6]"])).
Proof.
  apply (comment_line_removable [Py.lit "4 ID INT"] [Py.lit "6 NAME STRING[6]"]
           (Py.lit "  # the name")).
  - repeat constructor; vm_compute; intuition discriminate.
  - right. reflexivity.
Defined.

(** ** Texts written line by line *)




















(** *** Every well-formed text is written with such lines *)

Lemma join_split_sep (sep : N) (s : Py.str) :
  Py.join sep (Py.split_sep sep s) = s.
Proof.
  induction s as [|c s IH]; [reflexivity|].
  pose proof (split_sep_not_nil sep s) as Hne.
  simpl. destruct (N.eqb_spec c sep) as [->|Hc].
  - destruct (Py.split_sep sep s) as [|p ps]; [contradiction|].
    change (Py.join sep ([] :: p :: ps)) with ([] ++ sep :: Py.join sep (p :: ps)).
    rewrite IH. reflexivity.
  - destruct (Py.split_sep sep s) as [|p ps]; [contradiction|].
    rewrite <- IH. destruct ps as [|q ps]; reflexivity.
Qed.

Lemma split_sep_piece_no_sep (sep : N) (s piece : Py.str) :
  In piece (Py.split_sep sep s) -> ~ In sep piece.
Proof.
  revert piece. induction s as [|c s IH]; intros piece; simpl.
  - intros [<-|[]]. tauto.
  - pose proof (split_sep_not_nil sep s) as Hne.
    destruct (N.eqb_spec c sep) as [->|Hc].
    + intros [<-|Hin]; [tauto|apply IH, Hin].
    + destruct (Py.split_sep sep s) as [|p ps]; [contradiction|].
      intros [<-|Hin].
      * intros [Heq|Hin]; [congruence|]. revert Hin. apply IH. left. reflexivity.
      * apply IH. right. exact Hin.
Qed.

Lemma lstrip_decompose (s : Py.str) :
  exists ws, blank ws = true /\ s = ws ++ Py.lstrip s.
Proof.
  induction s as [|c s (ws & Hws & IH)]; [exists []; split; reflexivity|].
  simpl. destruct (Py.isspace c) eqn:Hc.
  - exists (c :: ws). split.
    + unfold blank in *. simpl. rewrite Hc, Hws. reflexivity.
    + simpl. rewrite <- IH. reflexivity.
  - exists []. split; reflexivity.
Qed.

Lemma item0_decompose (sep : N) (s : Py.str) :
  exists note : option Py.str,
    s = Py.item0 (Py.split_sep sep s) ++
        match note with Some tail => sep :: tail | None => [] end.
Proof.
  induction s as [|c s [note IH]]; [exists None; reflexivity|].
  pose proof (split_sep_not_nil sep s) as Hne.
  simpl. destruct (N.eqb_spec c sep) as [->|Hc].
  - exists (Some s). reflexivity.
  - destruct (Py.split_sep sep s) as [|p ps]; [contradiction|].
    exists note. simpl in *. rewrite <- IH. reflexivity.
Qed.

Lemma split_decompose (s : Py.str) :
  exists ws,
    blank ws = true /\
    match Py.split s with
    | [] => s = ws
    | tok :: toks =>
        exists rest,
          s = ws ++ tok ++ rest /\ tok <> [] /\
          (forall c, In c tok -> Py.isspace c = false) /\
          match rest with [] => True | c :: _ => Py.isspace c = true end /\
          Py.split rest = toks
    end.
Proof.
  induction s as [|c s (ws & Hws & IH)]; [exists []; split; reflexivity|].
  rewrite split_cons. destruct (Py.isspace c) eqn:Hc.
  - exists (c :: ws). split.
    + unfold blank in *. simpl. rewrite Hc, Hws. reflexivity.
    + destruct (Py.split s) as [|tok toks].
      * rewrite IH. reflexivity.
      * destruct IH as (rest & -> & Hrest). exists rest. split; [reflexivity|exact Hrest].
  - exists []. split; [reflexivity|].
    assert (forall c', In c' [c] -> Py.isspace c' = false) as Hone.
    { intros c' [<-|[]]. exact Hc. }
    destruct s as [|c' s].
    + exists []. repeat split; try exact Hone. discriminate.
    + destruct (Py.isspace c') eqn:Hc'.
      * exists (c' :: s). repeat split; try exact Hone; [discriminate|exact Hc'].
      * assert (ws = []) as ->.
        { destruct ws as [|w ws]; [reflexivity|]. exfalso.
          unfold blank in Hws. simpl in Hws. apply andb_true_iff in Hws as [Hw _].
          destruct (Py.split (c' :: s)) as [|tok toks].
          - injection IH as -> _. congruence.
          - destruct IH as (rest & Heq & _). injection Heq as -> _. congruence. }
        destruct (Py.split (c' :: s)) as [|tok toks]; [discriminate|].
        destruct IH as (rest & Heq & Hne & Htok & Hrest & Hsplit).
        exists rest. simpl in Heq. rewrite Heq.
        split; [reflexivity|]. split; [discriminate|].
        split; [|split; assumption].
        intros c0 [<-|Hin]; [exact Hc|apply Htok, Hin].
Qed.

Lemma not_in_app {A : Type} (x : A) (l1 l2 : list A) :
  ~ In x (l1 ++ l2) -> ~ In x l1 /\ ~ In x l2.
Proof. rewrite in_app_iff. tauto. Qed.

Lemma lstrip_head (s : Py.str) (c : N) (r : Py.str) :
  Py.lstrip s = c :: r -> Py.isspace c = false.
Proof.
  induction s as [|c0 s IH]; simpl; [discriminate|].
  destruct (Py.isspace c0) eqn:Hc0; [exact IH|].
  intros [= <- _]. exact Hc0.
Qed.

Lemma separator_not_nil (ws tok rest : Py.str) :
  tok <> [] -> (forall c, In c tok -> Py.isspace c = false) ->
  match ws ++ tok ++ rest with
  | [] => True
  | c :: _ => Py.isspace c = true
  end -> ws <> [].
Proof.
  intros Hne Htok Hstart ->. destruct tok as [|c tok]; [congruence|].
  simpl in Hstart. rewrite (Htok c (or_introl eq_refl)) in Hstart. discriminate.
Qed.

Lemma token_clean (tok : Py.str) :
  tok <> [] -> (forall c, In c tok -> Py.isspace c = false) ->
  ~ In Py.hash tok -> clean tok.
Proof.
  intros Hne Hsp Hh. split; [exact Hne|]. intros c Hc.
  split; [apply Hsp, Hc|]. intros ->. contradiction.
Qed.

Lemma selected_line_shaped (line : Py.str) :
  ~ In Py.nl line -> line_selected line = true -> well_formed line ->
  exists l, shaped l /\ render l = line /\ field_of l = [line_entry line].
Proof.
  intros Hnl Hsel Hwf. unfold well_formed in Hwf.
  unfold line_entry, line_name, line_index, line_type.
  unfold line_tokens in *.
  destruct (lstrip_decompose line) as (indent & Hindent & Hline).
  destruct (item0_decompose Py.hash (Py.lstrip line)) as [note Hnote].
  pose proof (item0_split_sep_no_sep Py.hash (Py.lstrip line)) as Hhash.
  set (body := Py.item0 (Py.split_sep Py.hash (Py.lstrip line))) in *.
  fold (inline_comment note) in Hnote.
  assert (match body with [] => True | c :: _ => Py.isspace c = false end) as Hhead.
  { destruct body as [|c b]; [exact I|].
    apply (lstrip_head line c (b ++ inline_comment note)). exact Hnote. }
  rewrite Hnote in Hline. clear Hnote. clearbody body.
  destruct (split_decompose body) as (ws0 & Hws0 & H0).
  destruct (Py.split body) as [|index [|name [|type_ [|? ?]]]] eqn:Hsplit;
    try discriminate. clear Hwf. simpl nth.
  destruct H0 as (rest0 & Hbody & Hi_ne & Hi_sp & Hr0 & Hs0).
  destruct (split_decompose rest0) as (sep1 & Hsep1 & H1). rewrite Hs0 in H1.
  destruct H1 as (rest1 & Hrest0 & Hn_ne & Hn_sp & Hr1 & Hs1).
  destruct (split_decompose rest1) as (sep2 & Hsep2 & H2). rewrite Hs1 in H2.
  destruct H2 as (rest2 & Hrest1 & Ht_ne & Ht_sp & Hr2 & Hs2).
  destruct (split_decompose rest2) as (trail & Htrail & H3). rewrite Hs2 in H3.
  subst rest2. subst rest1. subst rest0.
  pose proof (separator_not_nil sep1 name _ Hn_ne Hn_sp Hr0) as Hsep1_ne.
  pose proof (separator_not_nil sep2 type_ _ Ht_ne Ht_sp Hr1) as Hsep2_ne.
  assert (ws0 = []) as ->.
  { destruct ws0 as [|w ws0]; [reflexivity|]. exfalso.
    unfold blank in Hws0. simpl in Hws0. apply andb_true_iff in Hws0 as [Hw _].
    rewrite Hbody in Hhead. simpl in Hhead. congruence. }
  simpl in Hbody. subst body.
  exists (Field_line indent index sep1 name sep2 type_ trail note).
  rewrite Hline in Hnl.
  apply not_in_app in Hnl as [Hnl_i Hnl].
  apply not_in_app in Hnl as [Hnl Hnl_note].
  apply not_in_app in Hnl as [Hnl_index Hnl].
  apply not_in_app in Hnl as [Hnl_sep1 Hnl].
  apply not_in_app in Hnl as [Hnl_name Hnl].
  apply not_in_app in Hnl as [Hnl_sep2 Hnl].
  apply not_in_app in Hnl as [Hnl_type Hnl_trail].
  apply not_in_app in Hhash as [Hh_index Hhash].
  apply not_in_app in Hhash as [_ Hhash].
  apply not_in_app in Hhash as [Hh_name Hhash].
  apply not_in_app in Hhash as [_ Hhash].
  apply not_in_app in Hhash as [Hh_type _].
  split; [|split].
  - simpl. unfold padding.
    split; [tauto|]. split; [apply token_clean; assumption|].
    split; [tauto|]. split; [apply token_clean; assumption|].
    split; [tauto|]. split; [apply token_clean; assumption|].
    split; [tauto|]. destruct note; simpl in *; tauto.
  - simpl. rewrite Hline, <- !app_assoc. reflexivity.
  - reflexivity.
Qed.

Lemma skipped_line_shaped (line : Py.str) :
  ~ In Py.nl line -> line_selected line = false ->
  exists l, shaped l /\ render l = line /\ field_of l = [].
Proof.
  intros Hnl Hsel. destruct line as [|c line].
  { exists Empty_line. repeat split. }
  unfold line_selected in Hsel. simpl Py.truthy in Hsel.
  rewrite andb_true_l in Hsel. apply negb_false_iff in Hsel.
  destruct (lstrip_decompose (c :: line)) as (indent & Hindent & Hline).
  destruct (Py.lstrip (c :: line)) as [|h text]; [discriminate|].
  simpl in Hsel. apply N.eqb_eq in Hsel. subst h.
  exists (Comment_line indent text). rewrite Hline in Hnl.
  apply not_in_app in Hnl as [Hi Ht].
  split; [|split; [symmetry; exact Hline|reflexivity]].
  simpl. unfold padding. split; [tauto|]. intros Hin. apply Ht. right. exact Hin.
Qed.

Lemma lines_shaped (lines : list Py.str) :
  Forall (fun line => ~ In Py.nl line) lines ->
  Forall well_formed (List.filter line_selected lines) ->
  exists ls,
    Forall shaped ls /\ List.map render ls = lines /\
    fields_of ls = List.map line_entry (List.filter line_selected lines).
Proof.
  induction 1 as [|line lines Hnl _ IH]; intros Hwf.
  { exists []. repeat split. constructor. }
  simpl in *. destruct (line_selected line) eqn:Hsel.
  - apply Forall_cons_1 in Hwf as [Hline Hwf].
    destruct (IH Hwf) as (ls & Hls & Hrender & Hfields).
    destruct (selected_line_shaped line Hnl Hsel Hline) as (l & Hl & Hr & Hf).
    exists (l :: ls). split; [constructor; assumption|].
    split; [simpl; rewrite Hr, Hrender; reflexivity|].
    unfold fields_of in *. simpl. rewrite Hf, Hfields. reflexivity.
  - destruct (IH Hwf) as (ls & Hls & Hrender & Hfields).
    destruct (skipped_line_shaped line Hnl Hsel) as (l & Hl & Hr & Hf).
    exists (l :: ls). split; [constructor; assumption|].
    split; [simpl; rewrite Hr, Hrender; reflexivity|].
    unfold fields_of in *. simpl. rewrite Hf, Hfields. reflexivity.
Qed.

(** Every text whose selected lines all have three tokens, that is, every
    text that parses, is written with shaped lines; its fields are the
    entries of its selected lines. *)
Lemma well_formed_text_is_layout_text (text : Py.str) :
  Forall well_formed (selected_lines text) ->
  exists ls,
    Forall shaped ls /\ layout_text ls = text /\
    fields_of ls = List.map line_entry (selected_lines text).
Proof.
  intros Hwf. destruct (lines_shaped (lines_of text)) as (ls & Hls & Hr & Hf).
  - apply List.Forall_forall. intros line Hin.
    apply (split_sep_piece_no_sep Py.nl text line Hin).
  - exact Hwf.
  - exists ls. split; [exact Hls|]. split; [|exact Hf].
    unfold layout_text. rewrite Hr. apply join_split_sep.
Qed.



(** The fields of that text: A occupies the bytes 4..7, B the bytes 6..7
    inside A, and C, declared last, the bytes 0..3 before both. *)
Example overlapping_lines_ranges :
  layout_text overlapping_lines =
    Py.join Py.nl [Py.lit "4 A DWORD"; Py.lit "  # B lies inside A";
                   Py.lit "  6" ++ [9%N] ++ Py.lit "B  INT # a word";
                   Py.lit ""; Py.lit "0 C REAL"] /\
  List.map byte_range (fields_of overlapping_lines) =
    [Some (4, 8); Some (6, 8); Some (0, 4)]%N /\
  ranges_overlap (4, 8)%N (6, 8)%N = true.
Proof. repeat split. Qed.
